(** * Randomized SVD (mat/rsvd.go): a shallow embedding and its properties

    The file embeds the four methods of [RSVD] ([Factorize], [Values], [UTo],
    [VTo]) and the helper [makeRandomMatrix] of mat/rsvd.go.  Go code that can
    panic and that writes through pointers is written in a small monad
    [M S A]: a computation on a mutable state [S] that either returns a value
    or panics, and that keeps the writes done before the panic.

    The collaborators of rsvd.go (the dense matrix type, the QR and the SVD
    factorizations, the random source and float64 arithmetic) are not part of
    mat/rsvd.go.  The dense matrix is modelled below; float64, the random
    source, QR and SVD are interfaces (type classes), and what the
    specification requires of them is stated as separate contracts. *)

From Stdlib Require Import String ZArith List Lia Bool.
Import ListNotations.
Local Open Scope Z_scope.

(** ** Go's [int] on a 64-bit target *)

Module GoInt.

Definition maxInt : Z := 2 ^ 63 - 1.
Definition minInt : Z := - 2 ^ 63.

(** Two's complement wrap-around of a mathematical integer. *)
Definition wrap (z : Z) : Z := (z + 2 ^ 63) mod 2 ^ 64 - 2 ^ 63.

(** [a * b] on [int]. *)
Definition mul (a b : Z) : Z := wrap (a * b).

(** The runtime's allocation limit in bytes on 64-bit targets such as
    linux/amd64 (runtime.maxAlloc): make panics with "makeslice: len out of
    range" for a buffer above it. *)
Definition maxAlloc : Z := 2 ^ 48.

End GoInt.

(** ** Panics and outcomes *)

(** The values a run of rsvd.go can panic with. *)
Inductive panic_value : Type :=
| RankTooSmall (rank minRank : Z)
    (* fmt.Sprintf("Rank %d must be at least %d", rank, minRank) *)
| ErrShape
| ErrZeroLength
| ErrNegativeDimension
| ErrIndexOutOfRange
| ErrSliceLengthMismatch
| ErrReuseNonEmpty
| NilDereference          (* runtime error: invalid memory address or nil pointer dereference *)
| MakeSliceLenOutOfRange  (* runtime error: makeslice: len out of range *)
| OtherPanic (msg : string).

Inductive outcome (A : Type) : Type :=
| Returns (a : A)
| Panics (e : panic_value).

Arguments Returns {A} a.
Arguments Panics {A} e.

(** A computation over a mutable state [S]. The state that comes back with a
    panic is the state at the moment of the panic. *)
Definition M (S A : Type) : Type := S -> outcome A * S.

Definition ret {S A : Type} (a : A) : M S A := fun s => (Returns a, s).

Definition bind {S A B : Type} (c : M S A) (k : A -> M S B) : M S B :=
  fun s =>
    match c s with
    | (Returns a, s') => k a s'
    | (Panics e, s') => (Panics e, s')
    end.

Definition panic {S A : Type} (e : panic_value) : M S A := fun s => (Panics e, s).

(** A call that cannot write to the state. *)
Definition try {S A : Type} (o : outcome A) : M S A := fun s => (o, s).

(** A method call through a pointer to a local variable: the callee runs on
    the local [init], the caller's state is untouched and the local's new
    value is handed back. *)
Definition local {S L A : Type} (init : L) (c : M L A) : M S L :=
  fun s =>
    match c init with
    | (Returns _, l) => (Returns l, s)
    | (Panics e, _) => (Panics e, s)
    end.

Declare Scope go_scope.
Delimit Scope go_scope with go.

Notation "x <- c ;; k" := (bind c (fun x => k))
  (at level 100, c at next level, right associativity) : go_scope.
Notation "c ;;; k" := (bind c (fun _ => k))
  (at level 100, k at level 200, right associativity) : go_scope.

Local Open Scope go_scope.

(** ** float64 and the process-wide random source *)

(** float64 with the operations rsvd.go and its contracts need. No algebraic
    law is assumed of them. *)
Class Float64 : Type := {
  float64 : Type;
  f0 : float64;                          (* the zero value *)
  fadd : float64 -> float64 -> float64;
  fmul : float64 -> float64 -> float64;
  fle : float64 -> float64 -> Prop       (* <= *)
}.

(** math/rand's global generator: [rand.Float64()] reads and advances it. *)
Class RandSource `{Float64} : Type := {
  Rand : Type;
  rand_Float64 : Rand -> float64 * Rand
}.

(** ** Dense matrices *)

Section DenseMatrix.

Context `{Float64}.

(** Modelled from the spec: the dense matrix type (not part of mat/rsvd.go);
    section 6 asks for construction from row and column counts and an
    optional flat row-major data buffer, multiplication with shape
    checking, a transpose view, sub-block slicing, an emptiness query,
    resize-if-empty and element-wise copy-from, with shape mismatches
    signalled by a dedicated condition.  Strides and capacities are left
    out: a matrix is its two dimensions and its row-major elements, and a
    view is a copy. *)
Record Dense : Type := {
  Rows : Z;
  Cols : Z;
  Data : list float64
}.

(** [var d Dense]: the zero value, an empty matrix. *)
Definition emptyDense : Dense := {| Rows := 0; Cols := 0; Data := [] |}.

Definition Dims (d : Dense) : Z * Z := (Rows d, Cols d).

(** Element (i, j). *)
Definition at_ (d : Dense) (i j : Z) : float64 :=
  nth (Z.to_nat (i * Cols d + j)) (Data d) f0.

(** The r-by-c matrix whose element (i, j) is [f i j]. *)
Definition build (r c : Z) (f : Z -> Z -> float64) : Dense :=
  {| Rows := r;
     Cols := c;
     Data := map (fun k => f (Z.of_nat k / c) (Z.of_nat k mod c))
                 (seq 0 (Z.to_nat (r * c))) |}.

(** A matrix as a caller can hold it: positive dimensions, one element per
    position, and an element count that fits an [int]. *)
Definition valid (d : Dense) : Prop :=
  1 <= Rows d /\ 1 <= Cols d /\
  Z.of_nat (length (Data d)) = Rows d * Cols d /\
  Rows d * Cols d <= GoInt.maxInt.

(** Modelled from the spec: [NewDense(r, c, data)], construction from row
    and column counts and an optional row-major buffer ([None] is Go's
    nil). A dimension below one is a fatal failure, and so is a buffer
    whose length is not r*c; without a buffer the elements are zero. *)
Definition NewDense (r c : Z) (data : option (list float64)) : outcome Dense :=
  if (r <=? 0) || (c <=? 0) then
    if (r =? 0) || (c =? 0) then Panics ErrZeroLength
    else Panics ErrNegativeDimension
  else
    match data with
    | Some d =>
        if r * c =? Z.of_nat (length d)
        then Returns {| Rows := r; Cols := c; Data := d |}
        else Panics ErrShape
    | None => Returns (build r c (fun _ _ => f0))
    end.

(** Modelled from the spec: the emptiness query [IsEmpty]. *)
Definition IsEmpty (d : Dense) : bool := Cols d =? 0.

(** The inner product of row i of [a] and column j of [b], summed from
    k = 0 upwards. *)
Definition dot (a b : Dense) (i j : Z) : float64 :=
  fold_left (fun acc k => fadd acc (fmul (at_ a i (Z.of_nat k)) (at_ b (Z.of_nat k) j)))
            (seq 0 (Z.to_nat (Cols a))) f0.

(** The product a  *  b. *)
Definition matmul (a b : Dense) : Dense := build (Rows a) (Cols b) (dot a b).

(** Modelled from the spec: [recv.Mul(a, b)], C = A * B with shape checking.
    The inner dimensions must agree, and a receiver that is not empty must
    already have the shape of the product. *)
Definition Mul (a b : Dense) : M Dense unit :=
  fun recv =>
    if negb (Cols a =? Rows b) then (Panics ErrShape, recv)
    else if IsEmpty recv then (Returns tt, matmul a b)
    else if (Rows recv =? Rows a) && (Cols recv =? Cols b)
         then (Returns tt, matmul a b)
         else (Panics ErrShape, recv).

(** Modelled from the spec: the transpose view [a.T()]. *)
Definition T (a : Dense) : Dense :=
  build (Cols a) (Rows a) (fun i j => at_ a j i).

(** Modelled from the spec: sub-block slicing [a.Slice(i, k, j, l)], rows
    i..k-1 and columns j..l-1; a block that is empty or not inside the
    matrix is a fatal failure. *)
Definition Slice (a : Dense) (i k j l : Z) : outcome Dense :=
  if (i <? 0) || (Rows a <=? i) || (j <? 0) || (Cols a <=? j) ||
     (k <? i) || (Rows a <? k) || (l <? j) || (Cols a <? l)
  then
    if (k =? i) || (l =? j) then Panics ErrZeroLength
    else Panics ErrIndexOutOfRange
  else Returns (build (k - i) (l - j) (fun x y => at_ a (i + x) (j + y))).

(** Modelled from the spec: resize-if-empty, [recv.ReuseAs(r, c)]. *)
Definition ReuseAs (r c : Z) : M Dense unit :=
  fun recv =>
    if (r <=? 0) || (c <=? 0) then
      if (r =? 0) || (c =? 0) then (Panics ErrZeroLength, recv)
      else (Panics ErrNegativeDimension, recv)
    else if negb (IsEmpty recv) then (Panics ErrReuseNonEmpty, recv)
    else (Returns tt, build r c (fun _ _ => f0)).

(** Modelled from the spec: element-wise copy-from, [recv.Copy(a)]: the
    block common to both matrices is copied and its shape returned. *)
Definition Copy (a : Dense) : M Dense (Z * Z) :=
  fun recv =>
    let r := Z.min (Rows a) (Rows recv) in
    let c := Z.min (Cols a) (Cols recv) in
    if (r =? 0) || (c =? 0) then (Returns (0, 0), recv)
    else (Returns (r, c),
          build (Rows recv) (Cols recv)
                (fun i j => if (i <? r) && (j <? c) then at_ a i j else at_ recv i j)).

(** Modelled from the spec: what an extraction of a factor [X] into a
    destination does (QTo of QR, UTo and VTo of SVD): an empty destination
    is resized to the factor's shape, a non-empty one must have exactly
    that shape, and then receives a copy. *)
Definition extractTo (X : Dense) : M Dense unit :=
  fun dst =>
    if IsEmpty dst then (Returns tt, X)
    else if (Rows dst =? Rows X) && (Cols dst =? Cols X) then (Returns tt, X)
    else (Panics ErrShape, dst).

End DenseMatrix.

(** ** The QR and SVD collaborators *)

(** The QR factorization as rsvd.go uses it: [QR.Factorize(Z)] on a fresh
    receiver, then [QR.QTo(&QFull)]. *)
Class QRCollaborator `{Float64} : Type := {
  QR : Type;
  QR_Factorize : Dense -> outcome QR;
  QR_QTo : QR -> M Dense unit
}.

(** The [SVDKind] flag; rsvd.go passes [SVDThin]. *)
Inductive SVDKind : Type := SVDNone | SVDThin | SVDFull.

(** The exact SVD as rsvd.go uses it. [SVD_Factorize] writes the receiver,
    the three accessors only read it; [SVD_UTo] and [SVD_VTo] write their
    destination. The slice argument of [SVD_Values] is [None] for nil. *)
Class SVDCollaborator `{Float64} : Type := {
  SVD : Type;
  SVD_Factorize : Dense -> SVDKind -> M SVD bool;
  SVD_Values : SVD -> option (list float64) -> outcome (list float64);
  SVD_UTo : SVD -> M Dense unit;
  SVD_VTo : SVD -> M Dense unit
}.

(** ** mat/rsvd.go *)

Section RSVD.

Context `{RandSource} `{!QRCollaborator} `{!SVDCollaborator}.

(** type RSVD struct { svd *SVD; rank int; q *Dense; m int }
    A nil pointer is [None]. *)
Record RSVD : Type := {
  svd : option SVD;
  rank : Z;
  q : option Dense;
  m : Z
}.

(** The zero value [RSVD{}], which is what [var r RSVD] and [new(RSVD)]
    give. *)
Definition zeroRSVD : RSVD := {| svd := None; rank := 0; q := None; m := 0 |}.

(** What a call of [Factorize] can write: its receiver and the global
    random source. *)
Record World : Type := {
  self : RSVD;
  rnd : Rand
}.

(** make([]float64, n, n), for a length whose buffer the runtime can
    allocate.  The runtime's second makeslice panic, for a buffer of more
    than [GoInt.maxAlloc] bytes, is not part of this definition: the
    statements about a buffer that is returned take 8 * n within that
    limit, or a length bounded by that of a buffer the caller already
    holds. *)
Definition make_float64s (n : Z) : outcome (list float64) :=
  if n <? 0 then Panics MakeSliceLenOutOfRange
  else Returns (repeat f0 (Z.to_nat n)).

(** data[i] = x, for an index in range. *)
Fixpoint store (data : list float64) (i : nat) (x : float64) : list float64 :=
  match data, i with
  | [], _ => []
  | _ :: t, O => x :: t
  | h :: t, S i' => h :: store t i' x
  end.

(** for i := range data { data[i] = rand.Float64() }, from index [i] on for
    [k] more rounds. *)
Fixpoint fillRandom (k : nat) (i : nat) (data : list float64) : M Rand (list float64) :=
  match k with
  | O => ret data
  | S k' =>
      x <- (fun r => let (x, r') := rand_Float64 r in (Returns x, r')) ;;
      fillRandom k' (S i) (store data i x)
  end.

(** func makeRandomMatrix(rows, columns int) *Dense *)
Definition makeRandomMatrix (rows columns : Z) : M Rand Dense :=
  let dataLength := GoInt.mul rows columns in
  data <- try (make_float64s dataLength) ;;
  data <- fillRandom (length data) 0 data ;;
  try (NewDense rows columns (Some data)).

(** A computation on the random source, run inside [Factorize]. *)
Definition withRand {A : Type} (c : M Rand A) : M World A :=
  fun w =>
    let (o, r) := c (rnd w) in
    (o, {| self := self w; rnd := r |}).

(** rsvd.m = m *)
Definition set_m (m' : Z) : M World unit :=
  fun w =>
    (Returns tt,
     {| self := {| svd := svd (self w); rank := rank (self w);
                   q := q (self w); m := m' |};
        rnd := rnd w |}).

(** rsvd.q = Q *)
Definition set_q (Q : Dense) : M World unit :=
  fun w =>
    (Returns tt,
     {| self := {| svd := svd (self w); rank := rank (self w);
                   q := Some Q; m := m (self w) |};
        rnd := rnd w |}).

(** A method of *SVD called through the field rsvd.svd, writing the SVD it
    points to; the method reads its receiver, so a nil pointer is a nil
    dereference. *)
Definition onSvd {A : Type} (c : M SVD A) : M World A :=
  fun w =>
    match svd (self w) with
    | None => (Panics NilDereference, w)
    | Some s =>
        let (o, s') := c s in
        (o, {| self := {| svd := Some s'; rank := rank (self w);
                          q := q (self w); m := m (self w) |};
               rnd := rnd w |})
    end.

(** func (rsvd *RSVD) Factorize(A Matrix, rank int) bool
    The argument of interface type Matrix is a dense matrix.  Z, QFull, Y
    are locals; the receiver is written twice (m, then Q) and the SVD it
    points to is written by the last call. *)
Definition Factorize (A : Dense) (rank : Z) : M World bool :=
  let minRank := 1 in
  if rank <? minRank then panic (RankTooSmall rank minRank)
  else
    let '(m, n) := Dims A in
    P <- withRand (makeRandomMatrix n rank) ;;
    Z0 <- try (NewDense m rank None) ;;
    Z <- local Z0 (Mul A P) ;;
    qr <- try (QR_Factorize Z) ;;
    QFull <- local emptyDense (QR_QTo qr) ;;
    Q <- try (Slice QFull 0 m 0 rank) ;;
    Y0 <- try (NewDense rank n None) ;;
    Y <- local Y0 (Mul (T Q) A) ;;
    set_m m ;;;
    set_q Q ;;;
    onSvd (SVD_Factorize Y SVDThin).

(** func (rsvd *RSVD) Values(s []float64) []float64 *)
Definition Values (rsvd : RSVD) (s : option (list float64)) : outcome (list float64) :=
  match svd rsvd with
  | None => Panics NilDereference
  | Some sv => SVD_Values sv s
  end.

(** func (rsvd *RSVD) UTo(dst *Dense); the state is the matrix [dst]
    points to, which is taken to be no matrix the receiver holds. *)
Definition UTo (rsvd : RSVD) : M Dense unit :=
  Uy <- match svd rsvd with
        | None => panic NilDereference
        | Some sv => local emptyDense (SVD_UTo sv)
        end ;;
  U0 <- try (NewDense (m rsvd) (rank rsvd) None) ;;
  U <- match q rsvd with
       | None => panic NilDereference
       | Some Q => local U0 (Mul Q Uy)
       end ;;
  (fun dst =>
     if IsEmpty dst then ReuseAs (m rsvd) (rank rsvd) dst
     else
       let '(r2, c2) := Dims dst in
       if negb (m rsvd =? r2) || negb (rank rsvd =? c2)
       then (Panics ErrShape, dst)
       else (Returns tt, dst)) ;;;
  Copy U ;;;
  ret tt.

(** func (rsvd *RSVD) VTo(dst *Dense) *)
Definition VTo (rsvd : RSVD) : M Dense unit :=
  match svd rsvd with
  | None => panic NilDereference
  | Some sv => SVD_VTo sv
  end.

(** The part of [Factorize] after the rank check and before the call of
    the SVD: it leaves the reduced matrix Y, with m and Q stored.
    [Factorize_unfold] relates it to [Factorize]. *)
Definition reducedMatrix (A : Dense) (rank : Z) : M World Dense :=
  let '(m, n) := Dims A in
  P <- withRand (makeRandomMatrix n rank) ;;
  Z0 <- try (NewDense m rank None) ;;
  Z <- local Z0 (Mul A P) ;;
  qr <- try (QR_Factorize Z) ;;
  QFull <- local emptyDense (QR_QTo qr) ;;
  Q <- try (Slice QFull 0 m 0 rank) ;;
  Y0 <- try (NewDense rank n None) ;;
  Y <- local Y0 (Mul (T Q) A) ;;
  set_m m ;;;
  set_q Q ;;;
  ret Y.

(** The receiver after m and Q have been stored. *)
Definition stored (r : RSVD) (m' : Z) (Q : Dense) : RSVD :=
  {| svd := svd r; rank := rank r; q := Some Q; m := m' |}.

(** The receiver after the SVD it points to has been written. *)
Definition withState (r : RSVD) (sv : SVD) : RSVD :=
  {| svd := Some sv; rank := rank r; q := q r; m := m r |}.

(** The SVD collaborator, run by [Factorize A rank] from the world [w] on
    the reduced matrix, returned [b] and left the world [w']. *)
Definition collaboratorReturned (A : Dense) (rank : Z) (w : World)
           (b : bool) (w' : World) : Prop :=
  exists (Y : Dense) (w1 : World) (sv sv' : SVD),
    reducedMatrix A rank w = (Returns Y, w1) /\
    svd (self w1) = Some sv /\
    SVD_Factorize Y SVDThin sv = (Returns b, sv') /\
    w' = {| self := withState (self w1) sv'; rnd := rnd w1 |}.

(** The next [k] values of rand.Float64(), in the order they are drawn,
    and the random source after them. *)
Fixpoint draws (k : nat) (r : Rand) : list float64 * Rand :=
  match k with
  | O => ([], r)
  | S k' =>
      let (x, r1) := rand_Float64 r in
      let (l, r2) := draws k' r1 in
      (x :: l, r2)
  end.

End RSVD.

(** ** What the specification requires of the collaborators *)

Section Contracts.

Context `{RandSource} `{!QRCollaborator} `{!SVDCollaborator}.

(** Monotonically non-increasing. *)
Fixpoint descending (l : list float64) : Prop :=
  match l with
  | x :: t =>
      match t with
      | y :: _ => fle y x /\ descending t
      | [] => True
      end
  | [] => True
  end.

Definition nonneg (l : list float64) : Prop := Forall (fle f0) l.

(** Modelled from the spec: the slice contract of the SVD's [Values]
    (section 4.2 and the doc comment of [Values] in rsvd.go): a nil slice
    gets a new sequence, a slice that is not nil must have the length of
    the sequence of singular values, and a mismatched length is a fatal
    failure with ErrSliceLengthMismatch ([SVD.Values] is not part of
    mat/rsvd.go). *)
Definition valuesInto (vs : list float64) (s : option (list float64))
  : outcome (list float64) :=
  match s with
  | None => Returns vs
  | Some sl =>
      if Nat.eqb (length sl) (length vs) then Returns vs
      else Panics ErrSliceLengthMismatch
  end.

(** Modelled from the spec: the state of the SVD collaborator after a
    successful thin factorization of Y (sections 3, 4.2 to 4.4, 6 and the
    glossary; SVD.Factorize, Values, UTo and VTo are not part of
    mat/rsvd.go).  With k = min(rows of Y, columns of Y), the number of
    singular vectors a thin SVD computes, there are k singular values in
    descending order, none negative, left vectors of shape rows-by-k and
    right vectors of shape columns-by-k; each accessor hands them out
    under its destination contract.  For Y of size rank-by-n with
    rank <= n these are the rank values, the rank-by-rank left and the
    n-by-rank right vectors of section 6. *)
Definition thinSVD (Y : Dense) (sv : SVD) : Prop :=
  exists (vs : list float64) (Uy Vy : Dense),
    Z.of_nat (length vs) = Z.min (Rows Y) (Cols Y) /\
    descending vs /\ nonneg vs /\
    Dims Uy = (Rows Y, Z.min (Rows Y) (Cols Y)) /\
    Dims Vy = (Cols Y, Z.min (Rows Y) (Cols Y)) /\
    (forall s, SVD_Values sv s = valuesInto vs s) /\
    (forall dst, SVD_UTo sv dst = extractTo Uy dst) /\
    (forall dst, SVD_VTo sv dst = extractTo Vy dst).

(** Modelled from the spec: the contract of the exact SVD collaborator:
    when its thin factorization of a matrix reports success, its state is
    a thin SVD of that matrix. *)
Definition SVDContract : Prop :=
  forall (Y : Dense) (sv sv' : SVD),
    1 <= Rows Y -> 1 <= Cols Y ->
    SVD_Factorize Y SVDThin sv = (Returns true, sv') ->
    thinSVD Y sv'.

(** Modelled from the spec: the contract of the QR collaborator (section
    6): given an m-by-rank matrix (at least as many rows as columns) it
    produces the full m-by-m orthogonal factor on demand. *)
Definition QRContract : Prop :=
  forall Z : Dense,
    1 <= Cols Z <= Rows Z ->
    exists (qr : QR) (Qf : Dense),
      QR_Factorize Z = Returns qr /\
      QR_QTo qr emptyDense = (Returns tt, Qf) /\
      Dims Qf = (Rows Z, Rows Z).

(** Modelled from the spec: the shape part of the QR contract (section 6):
    whenever the QR collaborator hands its orthogonal factor to an empty
    destination, that factor is the full one, m-by-m for an input with m
    rows. *)
Definition QRFullFactor : Prop :=
  forall (Z Qf : Dense) (qr : QR) (u : unit),
    QR_Factorize Z = Returns qr ->
    QR_QTo qr emptyDense = (Returns u, Qf) ->
    Dims Qf = (Rows Z, Rows Z).

End Contracts.

(** ** A small exact instance of the collaborators

    Integers stand for float64, every draw of the random source is 0 (a
    value [rand.Float64] can return), the QR collaborator answers with the
    identity as orthogonal factor (exact for the sketch of a zero projector)
    and the SVD collaborator succeeds on the matrices whose thin SVD it
    knows exactly: the diagonal ones with a non-negative descending
    diagonal (U and V are then identities). On other matrices it reports
    that it did not succeed. *)

Module Exact.

Definition Zfloat : Float64 :=
  {| float64 := Z; f0 := 0; fadd := Z.add; fmul := Z.mul; fle := Z.le |}.

#[local] Existing Instance Zfloat.

(** The state counts the draws. *)
Definition zeroRand : RandSource :=
  {| Rand := nat; rand_Float64 := fun n => (0, S n) |}.

Definition identity (r c : Z) : Dense :=
  build r c (fun i j => if i =? j then 1 else 0).

Definition identityQR : QRCollaborator :=
  {| QR := Dense;
     QR_Factorize := fun Z =>
       if Rows Z <? Cols Z then Panics ErrShape
       else Returns (identity (Rows Z) (Rows Z));
     QR_QTo := fun qr => extractTo qr |}.

Definition diagOf (Y : Dense) : list Z :=
  map (fun k => at_ Y (Z.of_nat k) (Z.of_nat k))
      (seq 0 (Z.to_nat (Z.min (Rows Y) (Cols Y)))).

Definition isDiagonal (Y : Dense) : bool :=
  forallb (fun k => (Z.of_nat k / Cols Y =? Z.of_nat k mod Cols Y)
                    || (nth k (Data Y) 0 =? 0))
          (seq 0 (length (Data Y))).

Fixpoint descendingb (l : list Z) : bool :=
  match l with
  | x :: t =>
      match t with
      | y :: _ => (y <=? x) && descendingb t
      | [] => true
      end
  | [] => true
  end.

Definition nonnegb (l : list Z) : bool := forallb (fun x => 0 <=? x) l.

Definition badFact : panic_value :=
  OtherPanic "mat: use without successful factorization".

(** [None]: no successful factorization is stored. *)
Definition diagSVD : SVDCollaborator :=
  {| SVD := option (list Z * Dense * Dense);
     SVD_Factorize := fun Y kind _ =>
       let d := diagOf Y in
       match kind with
       | SVDThin =>
           if isDiagonal Y && descendingb d && nonnegb d
           then (Returns true,
                 Some (d,
                       identity (Rows Y) (Z.min (Rows Y) (Cols Y)),
                       identity (Cols Y) (Z.min (Rows Y) (Cols Y))))
           else (Returns false, None)
       | _ => (Returns false, None)
       end;
     SVD_Values := fun sv s =>
       match sv with
       | Some (d, _, _) => valuesInto d s
       | None => Panics badFact
       end;
     SVD_UTo := fun sv =>
       match sv with
       | Some (_, u, _) => extractTo u
       | None => panic badFact
       end;
     SVD_VTo := fun sv =>
       match sv with
       | Some (_, _, v) => extractTo v
       | None => panic badFact
       end |}.

(** A receiver as code of package mat can build it: RSVD{svd: &SVD{},
    rank: r}. *)
Definition withSVD (r : Z) : @RSVD Zfloat diagSVD :=
  {| svd := Some (None : @SVD Zfloat diagSVD); rank := r; q := None; m := 0 |}.

Definition world (r : @RSVD Zfloat diagSVD) : @World Zfloat zeroRand diagSVD :=
  {| self := r; rnd := (O : @Rand Zfloat zeroRand) |}.

(** A matrix from its rows. *)
Definition ofRows (rows : list (list Z)) : Dense :=
  {| Rows := Z.of_nat (length rows);
     Cols := Z.of_nat (length (hd [] rows));
     Data := concat rows |}.

(** A 2-by-2 matrix of rank 2, a 3-by-1 and a 2-by-1 matrix of rank 1, and
    a 1-by-1 matrix. *)
Definition A22 : Dense := ofRows [[3; 0]; [0; 2]].
Definition A31 : Dense := ofRows [[3]; [0]; [0]].
Definition A21 : Dense := ofRows [[3]; [0]].
Definition A11 : Dense := ofRows [[3]].

End Exact.

(** ** Running the monad *)

Section MonadFacts.

Context {S A B : Type}.

Lemma bind_Returns (c : M S A) (k : A -> M S B) (s s' : S) (b : B) :
  bind c k s = (Returns b, s') ->
  exists a s1, c s = (Returns a, s1) /\ k a s1 = (Returns b, s').
Proof.
  unfold bind. destruct (c s) as [[a | e] s1]; intros E.
  - exists a, s1. split; [reflexivity | exact E].
  - discriminate E.
Qed.

Lemma bind_step (c : M S A) (k : A -> M S B) (s s1 : S) (a : A) :
  c s = (Returns a, s1) -> bind c k s = k a s1.
Proof. unfold bind. intros ->. reflexivity. Qed.

Lemma bind_stop (c : M S A) (k : A -> M S B) (s s1 : S) (e : panic_value) :
  c s = (Panics e, s1) -> bind c k s = (Panics e, s1).
Proof. unfold bind. intros ->. reflexivity. Qed.

Lemma try_Returns (o : outcome A) (s s' : S) (a : A) :
  try o s = (Returns a, s') -> o = Returns a /\ s' = s.
Proof. unfold try. intros E. inversion E. split; reflexivity. Qed.

Lemma local_Returns {L : Type} (init l : L) (c : M L A) (s s' : S) :
  local init c s = (Returns l, s') ->
  exists a, c init = (Returns a, l) /\ s' = s.
Proof.
  unfold local. destruct (c init) as [[a | e] l0]; intros E; inversion E.
  subst. exists a. split; reflexivity.
Qed.

(** A run is its outcome and its final state. *)
Lemma run_eq (p : outcome A * S) (o : outcome A) :
  fst p = o -> p = (o, snd p).
Proof. destruct p as [o' s]. cbn. intros ->. reflexivity. Qed.

(** A property of the state that every step keeps is kept by the run,
    however it ends. *)
Lemma bind_preserves (P : S -> Prop) (c : M S A) (k : A -> M S B) (s : S) :
  (forall s0, P s0 -> P (snd (c s0))) ->
  (forall a s0, P s0 -> P (snd (k a s0))) ->
  P s -> P (snd (bind c k s)).
Proof.
  intros Hc Hk Hs. unfold bind. specialize (Hc s Hs).
  destruct (c s) as [[a | e] s1]; cbn [snd] in *.
  - apply Hk. exact Hc.
  - exact Hc.
Qed.

Lemma try_preserves (P : S -> Prop) (o : outcome A) (s : S) :
  P s -> P (snd (try o s)).
Proof. intros Hs. exact Hs. Qed.

Lemma local_preserves {L : Type} (P : S -> Prop) (init : L) (c : M L A) (s : S) :
  P s -> P (snd (local init c s)).
Proof.
  intros Hs. unfold local. destruct (c init) as [[a | e] l]; exact Hs.
Qed.

End MonadFacts.

(** ** Facts about dense matrices *)

Section DenseFacts.

Context `{Float64}.

Lemma nth_map_seq (g : nat -> float64) (n k : nat) (d : float64) :
  (k < n)%nat -> nth k (map g (seq 0 n)) d = g k.
Proof.
  intros Hk.
  rewrite (nth_indep _ d (g O)) by (rewrite length_map, length_seq; exact Hk).
  rewrite map_nth, seq_nth by exact Hk. reflexivity.
Qed.

Lemma index_div (i j c : Z) : 0 <= j < c -> (i * c + j) / c = i.
Proof.
  intros Hj. rewrite Z.div_add_l by lia. rewrite Z.div_small by lia. lia.
Qed.

Lemma index_mod (i j c : Z) : 0 <= j < c -> (i * c + j) mod c = j.
Proof.
  intros Hj. rewrite Z.add_comm, Z_mod_plus_full. apply Z.mod_small. exact Hj.
Qed.

(** [build] puts [f i j] at position (i, j). *)
Lemma at_build (r c : Z) (f : Z -> Z -> float64) (i j : Z) :
  0 <= i < r -> 0 <= j < c -> at_ (build r c f) i j = f i j.
Proof.
  intros Hi Hj. unfold at_, build. cbn [Cols Data].
  rewrite nth_map_seq by nia.
  rewrite Z2Nat.id by nia.
  rewrite index_div, index_mod by exact Hj. reflexivity.
Qed.

Lemma build_ext (r c : Z) (f g : Z -> Z -> float64) :
  0 <= c ->
  (forall i j, 0 <= i < r -> 0 <= j < c -> f i j = g i j) ->
  build r c f = build r c g.
Proof.
  intros Hc E. unfold build. f_equal. apply map_ext_in.
  intros k Hk. apply in_seq in Hk.
  assert (Hk' : 0 <= Z.of_nat k < r * c) by lia.
  assert (Hc' : 0 < c).
  { destruct (Z.eq_dec c 0) as [-> | Hne]; [rewrite Z.mul_0_r in Hk'; lia | lia]. }
  apply E.
  - split.
    + apply Z.div_pos; lia.
    + apply Z.div_lt_upper_bound; [lia | nia].
  - apply Z.mod_pos_bound. lia.
Qed.

Lemma Dims_build (r c : Z) (f : Z -> Z -> float64) : Dims (build r c f) = (r, c).
Proof. reflexivity. Qed.

Lemma NewDense_nil (r c : Z) (d : Dense) :
  NewDense r c None = Returns d ->
  1 <= r /\ 1 <= c /\ d = build r c (fun _ _ => f0).
Proof.
  unfold NewDense.
  destruct (Z.leb_spec r 0); destruct (Z.leb_spec c 0); cbn [orb];
    try (destruct ((r =? 0) || (c =? 0)); discriminate).
  intros E. inversion E. repeat split; lia.
Qed.

Lemma NewDense_nil_ok (r c : Z) :
  1 <= r -> 1 <= c -> NewDense r c None = Returns (build r c (fun _ _ => f0)).
Proof.
  intros Hr Hc. unfold NewDense.
  destruct (Z.leb_spec r 0); [lia |]. destruct (Z.leb_spec c 0); [lia |].
  reflexivity.
Qed.

Lemma Mul_Returns (a b recv d : Dense) (u : unit) :
  Mul a b recv = (Returns u, d) ->
  Cols a = Rows b /\ d = matmul a b /\
  (IsEmpty recv = true \/ (Rows recv = Rows a /\ Cols recv = Cols b)).
Proof.
  unfold Mul.
  destruct (Z.eqb_spec (Cols a) (Rows b)) as [E | E]; cbn [negb]; [| discriminate].
  destruct (IsEmpty recv).
  - intros R. inversion R. auto.
  - destruct (Z.eqb_spec (Rows recv) (Rows a)); cbn [andb]; [| discriminate].
    destruct (Z.eqb_spec (Cols recv) (Cols b)); [| discriminate].
    intros R. inversion R. auto.
Qed.

Lemma Mul_fresh (a b : Dense) :
  Cols a = Rows b -> 1 <= Cols b ->
  Mul a b (build (Rows a) (Cols b) (fun _ _ => f0)) = (Returns tt, matmul a b).
Proof.
  intros E Hc. unfold Mul, IsEmpty. cbn [Rows Cols build].
  rewrite E, Z.eqb_refl. cbn [negb].
  destruct (Z.eqb_spec (Cols b) 0); [lia |].
  rewrite !Z.eqb_refl. reflexivity.
Qed.

Lemma Slice_Returns (a d : Dense) (i k j l : Z) :
  Slice a i k j l = Returns d ->
  d = build (k - i) (l - j) (fun x y => at_ a (i + x) (j + y)) /\
  0 <= i < Rows a /\ i <= k <= Rows a /\ 0 <= j < Cols a /\ j <= l <= Cols a.
Proof.
  unfold Slice.
  destruct (Z.ltb_spec i 0); cbn [orb];
    [destruct ((k =? i) || (l =? j)); discriminate |].
  destruct (Z.leb_spec (Rows a) i); cbn [orb];
    [destruct ((k =? i) || (l =? j)); discriminate |].
  destruct (Z.ltb_spec j 0); cbn [orb];
    [destruct ((k =? i) || (l =? j)); discriminate |].
  destruct (Z.leb_spec (Cols a) j); cbn [orb];
    [destruct ((k =? i) || (l =? j)); discriminate |].
  destruct (Z.ltb_spec k i); cbn [orb];
    [destruct ((k =? i) || (l =? j)); discriminate |].
  destruct (Z.ltb_spec (Rows a) k); cbn [orb];
    [destruct ((k =? i) || (l =? j)); discriminate |].
  destruct (Z.ltb_spec l j); cbn [orb];
    [destruct ((k =? i) || (l =? j)); discriminate |].
  destruct (Z.ltb_spec (Cols a) l); cbn [orb];
    [destruct ((k =? i) || (l =? j)); discriminate |].
  intros E. inversion E. repeat split; lia.
Qed.

(** Copying a matrix onto a destination of its own shape gives the
    matrix. *)
Lemma Copy_same_shape (r c : Z) (f : Z -> Z -> float64) (dst : Dense) :
  1 <= r -> 1 <= c -> Rows dst = r -> Cols dst = c ->
  Copy (build r c f) dst = (Returns (r, c), build r c f).
Proof.
  intros Hr Hc Er Ec. unfold Copy. cbn [Rows Cols build].
  rewrite Er, Ec, !Z.min_id.
  destruct (Z.eqb_spec r 0); [lia |]. destruct (Z.eqb_spec c 0); [lia |].
  cbn [orb]. f_equal. apply build_ext; [lia |]. intros i j Hi Hj.
  destruct (Z.ltb_spec i r); [| lia]. destruct (Z.ltb_spec j c); [| lia].
  cbn [andb]. apply at_build; assumption.
Qed.

End DenseFacts.

(** ** Facts about [Factorize] *)

Section FactorizeFacts.

Context `{RandSource} `{!QRCollaborator} `{!SVDCollaborator}.

(** Case analysis on every step of a straight-line run. *)
Ltac steps :=
  repeat match goal with
         | |- context [match ?x with _ => _ end] => destruct x
         end.

(** [Factorize] is its rank check, then [reducedMatrix], then the call of
    the SVD collaborator on the reduced matrix. *)
Lemma Factorize_unfold (A : Dense) (rk : Z) (w : World) :
  Factorize A rk w =
  if rk <? 1 then (Panics (RankTooSmall rk 1), w)
  else bind (reducedMatrix A rk) (fun Y => onSvd (SVD_Factorize Y SVDThin)) w.
Proof.
  unfold Factorize, reducedMatrix, panic. cbn [Dims].
  destruct (rk <? 1); [reflexivity |].
  unfold bind, ret. steps; reflexivity.
Qed.

(** [reducedMatrix] writes neither the svd field nor the rank field,
    whether it returns or panics. *)
Lemma reducedMatrix_frame (A : Dense) (rk : Z) (w : World) :
  svd (self (snd (reducedMatrix A rk w))) = svd (self w) /\
  rank (self (snd (reducedMatrix A rk w))) = rank (self w).
Proof.
  set (P := fun w' : World =>
              svd (self w') = svd (self w) /\ rank (self w') = rank (self w)).
  assert (G : forall w0, P w0 -> P (snd (reducedMatrix A rk w0)));
    [| apply G; split; reflexivity].
  unfold reducedMatrix. cbn [Dims]. intros w0 Hw0.
  repeat (first
    [ apply try_preserves
    | apply local_preserves
    | apply bind_preserves; [intros ? ? | intros ? ? ? |] ]);
    try assumption.
  unfold withRand.
  destruct (makeRandomMatrix (Cols A) rk (rnd s0)) as [o r]. assumption.
Qed.

Lemma onSvd_frame {A : Type} (c : M SVD A) (w : World) :
  rank (self (snd (onSvd c w))) = rank (self w) /\
  q (self (snd (onSvd c w))) = q (self w) /\
  m (self (snd (onSvd c w))) = m (self w) /\
  rnd (snd (onSvd c w)) = rnd w /\
  (svd (self w) = None -> onSvd c w = (Panics NilDereference, w)).
Proof.
  unfold onSvd. destruct (svd (self w)) as [sv |].
  - destruct (c sv) as [o sv']. cbn. repeat split; try reflexivity. discriminate.
  - cbn. repeat split; reflexivity.
Qed.

(** No run of [Factorize] writes the rank field. *)
Lemma Factorize_keeps_rank (A : Dense) (rk : Z) (w : World) :
  rank (self (snd (Factorize A rk w))) = rank (self w).
Proof.
  rewrite Factorize_unfold. destruct (rk <? 1); [reflexivity |].
  unfold bind.
  pose proof (reducedMatrix_frame A rk w) as [_ Hr].
  destruct (reducedMatrix A rk w) as [[Y | e] w1]; cbn [snd] in *.
  - rewrite <- Hr. apply onSvd_frame.
  - exact Hr.
Qed.

(** What a returning run of [reducedMatrix] has computed and stored. *)
Lemma reducedMatrix_Returns (A Y : Dense) (rk : Z) (w w1 : World) :
  reducedMatrix A rk w = (Returns Y, w1) ->
  exists Q : Dense,
    1 <= rk /\ 1 <= Rows A /\ 1 <= Cols A /\
    Dims Q = (Rows A, rk) /\
    Y = matmul (T Q) A /\
    self w1 = stored (self w) (Rows A) Q.
Proof.
  unfold reducedMatrix. cbn [Dims]. intros R.
  apply bind_Returns in R as (P & w2 & HP & R).
  apply bind_Returns in R as (Z0 & w3 & HZ0 & R).
  apply bind_Returns in R as (Zs & w4 & HZ & R).
  apply bind_Returns in R as (qr & w5 & Hqr & R).
  apply bind_Returns in R as (QFull & w6 & HQF & R).
  apply bind_Returns in R as (Q & w7 & HQ & R).
  apply bind_Returns in R as (Y0 & w8 & HY0 & R).
  apply bind_Returns in R as (Y' & w9 & HY & R).
  apply bind_Returns in R as (u1 & w10 & Hm & R).
  apply bind_Returns in R as (u2 & w11 & Hq & R).
  apply try_Returns in HZ0 as [HZ0 ->].
  apply local_Returns in HZ as (u3 & HZ & ->).
  apply try_Returns in Hqr as [Hqr ->].
  apply local_Returns in HQF as (u4 & HQF & ->).
  apply try_Returns in HQ as [HQ ->].
  apply try_Returns in HY0 as [HY0 ->].
  apply local_Returns in HY as (u5 & HY & ->).
  apply NewDense_nil in HZ0 as (Hm1 & Hr1 & ->).
  apply NewDense_nil in HY0 as (_ & Hn1 & ->).
  apply Slice_Returns in HQ as (-> & _).
  apply Mul_Returns in HY as (_ & -> & _).
  unfold set_m in Hm. inversion Hm; subst w10; clear Hm.
  unfold set_q in Hq. inversion Hq; subst w11; clear Hq.
  unfold ret in R. inversion R; subst; clear R.
  unfold withRand in HP.
  destruct (makeRandomMatrix (Cols A) rk (rnd w)) as [oP r'].
  inversion HP; subst; clear HP. cbn [self rnd svd rank q m].
  eexists. repeat split; try eassumption.
  unfold Dims, build. cbn [Rows Cols]. f_equal; lia.
Qed.

(** A run of [Factorize] returns [b] exactly when the rank check passes,
    the reduced matrix is computed, the svd field is not nil and the SVD
    collaborator's thin factorization of the reduced matrix returns [b]. *)
Lemma Factorize_Returns (A : Dense) (rk : Z) (w w' : World) (b : bool) :
  Factorize A rk w = (Returns b, w') <->
  1 <= rk /\
  exists (Y : Dense) (w1 : World) (sv sv' : SVD),
    reducedMatrix A rk w = (Returns Y, w1) /\
    svd (self w1) = Some sv /\
    SVD_Factorize Y SVDThin sv = (Returns b, sv') /\
    w' = {| self := withState (self w1) sv'; rnd := rnd w1 |}.
Proof.
  rewrite Factorize_unfold. split.
  - destruct (Z.ltb_spec rk 1); [discriminate |]. intros R.
    split; [lia |].
    apply bind_Returns in R as (Y & w1 & HY & R).
    exists Y, w1. unfold onSvd in R.
    destruct (svd (self w1)) as [sv |] eqn:Esv; [| discriminate].
    destruct (SVD_Factorize Y SVDThin sv) as [o sv'] eqn:Ef.
    inversion R; subst. exists sv, sv'. repeat split; auto.
  - intros (Hrk & Y & w1 & sv & sv' & HY & Esv & Ef & ->).
    destruct (Z.ltb_spec rk 1); [lia |].
    rewrite (bind_step _ _ _ _ _ HY). unfold onSvd.
    rewrite Esv, Ef. reflexivity.
Qed.

End FactorizeFacts.

(** ** Facts about the accessors *)

Section AccessorFacts.

Context `{RandSource} `{!QRCollaborator} `{!SVDCollaborator}.

(** The receiver a successful [Factorize] leaves, under the contract of
    the SVD collaborator. *)
Lemma Factorize_success (A : Dense) (rk : Z) (w w' : World) :
  SVDContract ->
  Factorize A rk w = (Returns true, w') ->
  exists (Q : Dense) (sv : SVD),
    1 <= rk /\ 1 <= Rows A /\ 1 <= Cols A /\
    Dims Q = (Rows A, rk) /\
    self w' = withState (stored (self w) (Rows A) Q) sv /\
    thinSVD (matmul (T Q) A) sv.
Proof.
  intros C R.
  apply Factorize_Returns in R as (_ & Y & w1 & sv & sv' & HY & _ & Ef & ->).
  apply reducedMatrix_Returns in HY as (Q & Hrk & Hm & Hn & HQ & -> & Hs).
  exists Q, sv'. cbn [self]. rewrite Hs.
  repeat split; try assumption.
  apply (C _ sv sv'); [| | exact Ef].
  - unfold matmul, T, build. cbn [Rows Cols]. injection HQ as _ ->. exact Hrk.
  - unfold matmul, build. cbn [Cols]. exact Hn.
Qed.

(** [UTo] on a receiver that holds m, rank, Q and an SVD whose left vectors
    Uy have the shape rank-by-rank. *)
Lemma UTo_runs (r : RSVD) (sv : SVD) (Q Uy : Dense) :
  svd r = Some sv -> q r = Some Q ->
  1 <= m r -> 1 <= rank r ->
  (forall dst, SVD_UTo sv dst = extractTo Uy dst) ->
  Dims Q = (m r, rank r) -> Dims Uy = (rank r, rank r) ->
  forall dst : Dense,
    UTo r dst =
    if IsEmpty dst then (Returns tt, matmul Q Uy)
    else if (Rows dst =? m r) && (Cols dst =? rank r)
         then (Returns tt, matmul Q Uy)
         else (Panics ErrShape, dst).
Proof.
  intros Hsv Hq Hm Hrk HU HQ HUy dst.
  injection HQ as HQr HQc. injection HUy as HUr HUc.
  assert (Hmul : Mul Q Uy (build (m r) (rank r) (fun _ _ => f0))
                 = (Returns tt, matmul Q Uy)).
  { rewrite <- HQr at 1. rewrite <- HUc at 1. apply Mul_fresh; lia. }
  assert (HU' : matmul Q Uy = build (m r) (rank r) (dot Q Uy)).
  { unfold matmul. rewrite HQr, HUc. reflexivity. }
  unfold UTo. rewrite Hsv, Hq.
  unfold bind at 1. unfold local at 1. rewrite HU.
  unfold extractTo at 1. cbn [IsEmpty emptyDense Cols Z.eqb].
  unfold bind at 1. unfold try at 1. rewrite (NewDense_nil_ok _ _ Hm Hrk).
  unfold bind at 1. unfold local at 1. rewrite Hmul.
  unfold bind at 1.
  destruct (IsEmpty dst) eqn:Ee.
  - unfold ReuseAs. rewrite Ee.
    destruct (Z.leb_spec (m r) 0); [lia |].
    destruct (Z.leb_spec (rank r) 0); [lia |].
    cbn [orb negb]. unfold bind. rewrite HU'.
    rewrite Copy_same_shape by (reflexivity || lia). reflexivity.
  - unfold Dims.
    destruct (Z.eqb_spec (m r) (Rows dst)) as [E1 | E1];
      destruct (Z.eqb_spec (Rows dst) (m r)) as [E1' | E1'];
      try congruence; cbn [negb orb andb]; try reflexivity.
    destruct (Z.eqb_spec (rank r) (Cols dst)) as [E2 | E2];
      destruct (Z.eqb_spec (Cols dst) (rank r)) as [E2' | E2'];
      try congruence; cbn [negb]; try reflexivity.
    unfold bind. rewrite HU'.
    rewrite Copy_same_shape by (assumption || lia). reflexivity.
Qed.

End AccessorFacts.

(** ** The exact instance meets the contracts *)

Section ExactFacts.

Import Exact.
#[local] Existing Instance Zfloat.
#[local] Existing Instance diagSVD.
#[local] Existing Instance identityQR.

Lemma descendingb_descending (l : list Z) :
  descendingb l = true -> descending l.
Proof.
  induction l as [| x t IH]; [exact (fun _ => I) |].
  destruct t as [| y t']; [exact (fun _ => I) |].
  intros E. cbn [descendingb] in E. apply andb_prop in E as [E1 E2].
  split.
  - apply Z.leb_le. exact E1.
  - apply IH. exact E2.
Qed.

Lemma nonnegb_nonneg (l : list Z) : nonnegb l = true -> nonneg l.
Proof.
  unfold nonnegb, nonneg. intros E. apply Forall_forall. intros x Hx.
  apply Z.leb_le. exact (proj1 (forallb_forall _ l) E x Hx).
Qed.

Lemma diagSVD_contract : SVDContract.
Proof.
  intros Y sv sv' Hr Hc E. cbn in E.
  destruct (isDiagonal Y && descendingb (diagOf Y) && nonnegb (diagOf Y)) eqn:C;
    inversion E; subst; clear E.
  apply andb_prop in C as [C Hn]. apply andb_prop in C as [_ Hd].
  exists (diagOf Y),
         (identity (Rows Y) (Z.min (Rows Y) (Cols Y))),
         (identity (Cols Y) (Z.min (Rows Y) (Cols Y))).
  split; [| split; [| split; [| repeat split]]].
  - unfold diagOf. rewrite length_map, length_seq. apply Z2Nat.id. lia.
  - apply descendingb_descending. exact Hd.
  - apply nonnegb_nonneg. exact Hn.
Qed.

Lemma identityQR_contract : QRContract.
Proof.
  intros Z [Hc Hr]. cbn.
  destruct (Z.ltb_spec (Rows Z) (Cols Z)); [lia |].
  exists (identity (Rows Z) (Rows Z)), (identity (Rows Z) (Rows Z)).
  repeat split.
Qed.

End ExactFacts.

(** ** Facts about [makeRandomMatrix] and the chain of [Factorize] *)

Section ChainFacts.

Context `{RandSource} `{!QRCollaborator} `{!SVDCollaborator}.

Lemma wrap_small (z : Z) :
  GoInt.minInt <= z <= GoInt.maxInt -> GoInt.wrap z = z.
Proof.
  unfold GoInt.wrap, GoInt.minInt, GoInt.maxInt.
  assert (E63 : 2 ^ 63 = 9223372036854775808) by reflexivity.
  assert (E64 : 2 ^ 64 = 18446744073709551616) by reflexivity.
  rewrite E63, E64. intros Hz. rewrite Z.mod_small; lia.
Qed.

Lemma length_store (data : list float64) (i : nat) (x : float64) :
  length (store data i x) = length data.
Proof.
  revert i. induction data as [| h t IH]; intros [| i]; cbn; auto.
Qed.

(** The loop of [makeRandomMatrix] always ends and keeps the length of
    the buffer. *)
Lemma fillRandom_total (k i : nat) (data : list float64) (r : Rand) :
  exists (data' : list float64) (r' : Rand),
    fillRandom k i data r = (Returns data', r') /\ length data' = length data.
Proof.
  revert i data r. induction k as [| k IH]; intros i data r.
  - exists data, r. split; reflexivity.
  - cbn [fillRandom]. unfold bind.
    destruct (rand_Float64 r) as [x r1].
    destruct (IH (Datatypes.S i) (store data i x) r1) as (d' & r' & E & L).
    exists d', r'. split; [exact E |]. rewrite L. apply length_store.
Qed.

(** [makeRandomMatrix] returns a rows-by-columns matrix when both counts
    are positive and their product fits an [int]. *)
Lemma makeRandomMatrix_runs (rows columns : Z) (r : Rand) :
  1 <= rows -> 1 <= columns -> rows * columns <= GoInt.maxInt ->
  exists (P : Dense) (r' : Rand),
    makeRandomMatrix rows columns r = (Returns P, r') /\
    Dims P = (rows, columns).
Proof.
  intros Hr Hc Hfit. unfold makeRandomMatrix, GoInt.mul.
  rewrite wrap_small by (unfold GoInt.minInt, GoInt.maxInt in *; nia).
  unfold make_float64s.
  destruct (Z.ltb_spec (rows * columns) 0); [nia |].
  unfold bind at 1. unfold try at 1.
  destruct (fillRandom_total
              (length (repeat f0 (Z.to_nat (rows * columns)))) 0
              (repeat f0 (Z.to_nat (rows * columns))) r)
    as (d' & r' & E & L).
  unfold bind. rewrite E. unfold try, NewDense.
  destruct (Z.leb_spec rows 0); [lia |].
  destruct (Z.leb_spec columns 0); [lia |]. cbn [orb].
  rewrite L, repeat_length, Z2Nat.id, Z.eqb_refl by nia.
  eexists _, r'. split; reflexivity.
Qed.

Lemma Slice_leading_columns (a : Dense) (n k : Z) :
  Dims a = (n, n) -> 1 <= k <= n ->
  Slice a 0 n 0 k = Returns (build n k (fun x y => at_ a x y)).
Proof.
  intros D Hk. injection D as Dr Dc. unfold Slice. rewrite Dr, Dc.
  destruct (Z.leb_spec n 0); [lia |].
  destruct (Z.ltb_spec n 0); [lia |].
  destruct (Z.ltb_spec k 0); [lia |].
  destruct (Z.ltb_spec n n); [lia |].
  destruct (Z.ltb_spec n k); [lia |].
  cbn [Z.ltb Z.compare orb]. rewrite !Z.sub_0_r. reflexivity.
Qed.

(** The chain of [Factorize] up to the call of the SVD, for a rank that
    is at most the number of rows. *)
Lemma reducedMatrix_chain (A : Dense) (rk : Z) (w : World) :
  QRContract -> valid A -> 1 <= rk <= Rows A ->
  exists (P Zs QFull Q Y : Dense) (qr : QR) (r' : Rand),
    makeRandomMatrix (Cols A) rk (rnd w) = (Returns P, r') /\
    Dims P = (Cols A, rk) /\
    Zs = matmul A P /\ Dims Zs = (Rows A, rk) /\
    QR_Factorize Zs = Returns qr /\
    QR_QTo qr emptyDense = (Returns tt, QFull) /\
    Dims QFull = (Rows A, Rows A) /\
    Slice QFull 0 (Rows A) 0 rk = Returns Q /\
    Q = build (Rows A) rk (fun i j => at_ QFull i j) /\
    Y = matmul (T Q) A /\ Dims Y = (rk, Cols A) /\
    reducedMatrix A rk w
    = (Returns Y, {| self := stored (self w) (Rows A) Q; rnd := r' |}).
Proof.
  intros C (Hm & Hn & _ & Hfit) Hrk.
  destruct (makeRandomMatrix_runs (Cols A) rk (rnd w)) as (P & r' & EP & DP);
    [lia | lia | nia |].
  injection DP as DPr DPc.
  assert (EZ : Mul A P (build (Rows A) rk (fun _ _ => f0))
               = (Returns tt, matmul A P)).
  { rewrite <- DPc. apply Mul_fresh; lia. }
  destruct (C (matmul A P)) as (qr & QFull & Eqr & EQF & DQF).
  { unfold matmul, build. cbn [Rows Cols]. lia. }
  cbn [matmul build Rows] in DQF.
  pose proof (Slice_leading_columns QFull (Rows A) rk DQF Hrk) as EQ.
  set (Q := build (Rows A) rk (fun x y => at_ QFull x y)) in *.
  assert (EY : Mul (T Q) A (build rk (Cols A) (fun _ _ => f0))
               = (Returns tt, matmul (T Q) A)).
  { change rk with (Rows (T Q)) at 1. apply Mul_fresh; [reflexivity | lia]. }
  exists P, (matmul A P), QFull, Q, (matmul (T Q) A), qr, r'.
  repeat split; try assumption; try reflexivity.
  - unfold Dims. congruence.
  - unfold Dims, matmul, build. cbn [Rows Cols]. congruence.
  - unfold reducedMatrix. cbn [Dims].
    unfold bind at 1. unfold withRand at 1. rewrite EP.
    unfold bind at 1. unfold try at 1.
    rewrite (NewDense_nil_ok (Rows A) rk) by lia.
    unfold bind at 1. unfold local at 1. cbn [rnd self]. rewrite EZ.
    unfold bind at 1. unfold try at 1. rewrite Eqr.
    unfold bind at 1. unfold local at 1. rewrite EQF.
    unfold bind at 1. unfold try at 1. rewrite EQ.
    unfold bind at 1. unfold try at 1.
    rewrite (NewDense_nil_ok rk (Cols A)) by lia.
    unfold bind at 1. unfold local at 1. rewrite EY.
    reflexivity.
Qed.

End ChainFacts.

(** ** The claims, for every collaborator *)

Section Claims.

Context `{RandSource} `{!QRCollaborator} `{!SVDCollaborator}.

(** With a nil svd field, a run of [Factorize] that passes the rank check
    panics, leaves the field nil, and the panic is the nil dereference
    whenever the reduced matrix was computed. *)
Lemma Factorize_nil_svd (A : Dense) (rk : Z) (w : World) :
  svd (self w) = None ->
  svd (self (snd (Factorize A rk w))) = None /\
  (1 <= rk ->
   exists e : panic_value,
     fst (Factorize A rk w) = Panics e /\
     (forall Y w1, reducedMatrix A rk w = (Returns Y, w1) -> e = NilDereference)).
Proof.
  intros Hnil. rewrite Factorize_unfold.
  destruct (Z.ltb_spec rk 1) as [Hlt | Hge].
  - split; [exact Hnil | lia].
  - pose proof (reducedMatrix_frame A rk w) as [Hsvd _].
    unfold bind.
    destruct (reducedMatrix A rk w) as [[Y | e] w1]; cbn [snd] in Hsvd.
    + rewrite Hnil in Hsvd.
      destruct (onSvd_frame (SVD_Factorize Y SVDThin) w1) as (_ & _ & _ & _ & Hp).
      rewrite (Hp Hsvd). cbn [fst snd]. split; [exact Hsvd |].
      intros _. exists NilDereference. split; [reflexivity | reflexivity].
    + cbn [fst snd]. split; [congruence |].
      intros _. exists e. split; [reflexivity |]. intros Y w2 E. discriminate E.
Qed.

(** For every rank >= 1, [Factorize A rank] returns a flag exactly when the
    SVD collaborator, run on the reduced matrix Y, returned that flag (true
    for a successful factorization); once it has returned true, [Values] and
    [VTo] answer, and [UTo] answers in the case where the rank field of the
    receiver held [rank] beforehand and rank is at most the number of
    columns of A. *)
Lemma Factorize_reports_the_reduced_SVD
        (A : Dense) (rk : Z) (w w' : World) :
  SVDContract -> 1 <= rk ->
  (forall b : bool,
      Factorize A rk w = (Returns b, w') <-> collaboratorReturned A rk w b w') /\
  (Factorize A rk w = (Returns true, w') ->
   (exists vs, Values (self w') None = Returns vs) /\
   (exists V, VTo (self w') emptyDense = (Returns tt, V)) /\
   (rank (self w) = rk -> rk <= Cols A ->
    exists U, UTo (self w') emptyDense = (Returns tt, U))).
Proof.
  intros C Hrk. split.
  - intros b. rewrite Factorize_Returns. unfold collaboratorReturned.
    split; [intros [_ E]; exact E | intros E; split; [exact Hrk | exact E]].
  - intros R.
    destruct (Factorize_success A rk w w' C R)
      as (Q & sv & _ & Hm & Hn & HQ & Hs & vs & Uy & Vy & Hl & _ & _ & HUy & _ & HV & HU & HVt).
    rewrite Hs. split; [| split].
    + exists vs. unfold Values. cbn [withState svd]. rewrite HV. reflexivity.
    + exists Vy. unfold VTo. cbn [withState svd]. rewrite HVt. reflexivity.
    + intros Er Hle. exists (matmul Q Uy).
      rewrite (UTo_runs _ sv Q Uy); cbn [withState stored svd q m rank];
        try reflexivity; try assumption; try lia.
      * rewrite Er. exact HQ.
      * rewrite Er. unfold matmul, T, build in HUy. cbn [Rows Cols] in HUy.
        injection HQ as _ HQc. rewrite HQc in HUy.
        rewrite Z.min_l in HUy by lia. exact HUy.
Qed.

(** C2 (as amended). The zero-valued receiver has a nil svd field, and
    [Factorize] never assigns it.  Every call of [Values], [UTo] or [VTo] on
    it panics with the nil dereference.  Every call of [Factorize] with
    rank >= 1 panics instead of returning: with the nil dereference whenever
    the steps before the call of the SVD complete (as they do for a valid A
    and rank <= m under the contract of the QR collaborator), and with the
    fatal failure of one of those steps otherwise. *)
Theorem C2_zero_value_receiver_panics
        (A : Dense) (rk : Z) (r0 : Rand)
        (s : option (list float64)) (dst : Dense) :
  let w := {| self := zeroRSVD; rnd := r0 |} in
  svd zeroRSVD = None /\
  svd (self (snd (Factorize A rk w))) = None /\
  (1 <= rk ->
   exists e : panic_value,
     fst (Factorize A rk w) = Panics e /\
     (forall Y w1, reducedMatrix A rk w = (Returns Y, w1) -> e = NilDereference)) /\
  (QRContract -> valid A -> 1 <= rk <= Rows A ->
   fst (Factorize A rk w) = Panics NilDereference) /\
  Values zeroRSVD s = Panics NilDereference /\
  UTo zeroRSVD dst = (Panics NilDereference, dst) /\
  VTo zeroRSVD dst = (Panics NilDereference, dst).
Proof.
  intros w.
  destruct (Factorize_nil_svd A rk w eq_refl) as [Hkeep Hpanic].
  repeat split; try assumption.
  intros C HA Hrk.
  destruct (Hpanic (proj1 Hrk)) as (e & He & Hnil).
  destruct (reducedMatrix_chain A rk w C HA Hrk)
    as (P & Zs & QFull & Q & Y & qr & r' & _ & _ & _ & _ & _ & _ & _ & _ & _ & _ & _ & E).
  rewrite He. f_equal. exact (Hnil _ _ E).
Qed.

(** C6. For every matrix A and every rank <= 0, [Factorize A rank] panics
    with its rank message before anything else happens: no flag is
    returned, and neither the receiver nor the random source has been
    touched. *)
Theorem C6_Factorize_rank_too_small (A : Dense) (rk : Z) (w : World) :
  rk <= 0 ->
  Factorize A rk w = (Panics (RankTooSmall rk 1), w) /\
  (forall b w', Factorize A rk w <> (Returns b, w')).
Proof.
  intros Hrk. rewrite Factorize_unfold.
  destruct (Z.ltb_spec rk 1); [| lia].
  split; [reflexivity | intros b w' E; discriminate E].
Qed.

(** C7. A call of [Factorize] that fails the rank check writes no field of
    the receiver: the receiver after the panic is the receiver before it, so
    [Values], [UTo] and [VTo] answer as they did before that call. *)
Theorem C7_failed_rank_check_keeps_the_factorization
        (A : Dense) (rk : Z) (w : World) :
  rk < 1 ->
  let w' := snd (Factorize A rk w) in
  (exists e, fst (Factorize A rk w) = Panics e) /\
  self w' = self w /\
  (forall s, Values (self w') s = Values (self w) s) /\
  (forall dst, UTo (self w') dst = UTo (self w) dst) /\
  (forall dst, VTo (self w') dst = VTo (self w) dst).
Proof.
  intros Hrk w'. subst w'. rewrite Factorize_unfold.
  destruct (Z.ltb_spec rk 1); [| lia]. cbn [fst snd].
  split; [eexists; reflexivity |]. repeat split.
Qed.

(** C8. [UTo] on a destination that is not empty and whose dimensions are
    not m-by-rank panics, and the destination still holds exactly what it
    held before the call. *)
Theorem C8_UTo_wrong_shape_leaves_dst (r : RSVD) (dst : Dense) :
  IsEmpty dst = false ->
  Dims dst <> (m r, rank r) ->
  exists e : panic_value, UTo r dst = (Panics e, dst).
Proof.
  intros Hne Hd. unfold UTo.
  unfold bind at 1.
  destruct (svd r) as [sv |]; [| eexists; reflexivity].
  unfold local at 1.
  destruct (SVD_UTo sv emptyDense) as [[u | e] Uy]; [| eexists; reflexivity].
  unfold bind at 1. unfold try at 1.
  destruct (NewDense (m r) (rank r) None) as [U0 | e]; [| eexists; reflexivity].
  unfold bind at 1.
  destruct (q r) as [Q |]; [| eexists; reflexivity].
  unfold local at 1.
  destruct (Mul Q Uy U0) as [[u' | e] U]; [| eexists; reflexivity].
  unfold bind at 1. rewrite Hne. unfold Dims in *.
  destruct (Z.eqb_spec (m r) (Rows dst)) as [E1 | E1]; cbn [negb orb];
    [| eexists; reflexivity].
  destruct (Z.eqb_spec (rank r) (Cols dst)) as [E2 | E2]; cbn [negb];
    [| eexists; reflexivity].
  exfalso. apply Hd. congruence.
Qed.

(** The case in which [UTo] does what its documentation says: after a
    successful [Factorize A rank] with rank <= n, on a receiver whose rank
    field held [rank] beforehand, [UTo] writes the m-by-rank matrix
    U = Q * Uy into its destination, where Q is the stored basis and Uy is
    the rank-by-rank matrix of left singular vectors the SVD collaborator
    hands out: an empty destination is resized to m-by-rank, a non-empty one
    of another shape makes the call panic with ErrShape. *)
Lemma UTo_back_projection (A : Dense) (rk : Z) (w w' : World) :
  SVDContract ->
  Factorize A rk w = (Returns true, w') ->
  rank (self w) = rk -> rk <= Cols A ->
  exists (Q Uy : Dense) (sv : SVD),
    svd (self w') = Some sv /\ q (self w') = Some Q /\
    m (self w') = Rows A /\ rank (self w') = rk /\
    Dims Q = (Rows A, rk) /\
    SVD_UTo sv emptyDense = (Returns tt, Uy) /\ Dims Uy = (rk, rk) /\
    Dims (matmul Q Uy) = (Rows A, rk) /\
    (forall i j, 0 <= i < Rows A -> 0 <= j < rk ->
                 at_ (matmul Q Uy) i j = dot Q Uy i j) /\
    (forall dst : Dense,
        UTo (self w') dst =
        if IsEmpty dst then (Returns tt, matmul Q Uy)
        else if (Rows dst =? Rows A) && (Cols dst =? rk)
             then (Returns tt, matmul Q Uy)
             else (Panics ErrShape, dst)).
Proof.
  intros C R Er Hle.
  destruct (Factorize_success A rk w w' C R)
    as (Q & sv & Hrk & Hm & Hn & HQ & Hs & vs & Uy & Vy & _ & _ & _ & HUy & _ & _ & HU & _).
  assert (HUy' : Dims Uy = (rk, rk)).
  { unfold matmul, T, build in HUy. cbn [Rows Cols] in HUy.
    injection HQ as _ HQc. rewrite HQc in HUy.
    rewrite Z.min_l in HUy by lia. exact HUy. }
  assert (HD : Dims (matmul Q Uy) = (Rows A, rk)).
  { injection HQ as HQr _. injection HUy' as _ HUc.
    unfold Dims, matmul, build. cbn [Rows Cols]. congruence. }
  exists Q, Uy, sv. rewrite Hs. cbn [withState stored svd q m rank].
  repeat split; try assumption.
  - rewrite HU. reflexivity.
  - intros i j Hi Hj. injection HD as HDr HDc. unfold matmul in *.
    cbn [build Rows Cols] in HDr, HDc. apply at_build; lia.
  - intros dst.
    rewrite (UTo_runs _ sv Q Uy); cbn [withState stored svd q m rank];
      try reflexivity; try assumption; try lia.
    + rewrite Er. reflexivity.
    + rewrite Er. exact HQ.
    + rewrite Er. exact HUy'.
Qed.

(** C5 (as amended). For every valid A (m-by-n) and every rank with
    1 <= rank <= m, [Factorize] computes this chain: P is the n-by-rank
    random projector, Z = A * P is m-by-rank, Q is the first rank columns
    of the full m-by-m orthogonal factor of the QR factorization of Z, and
    the matrix handed to the SVD collaborator, after m and Q are stored, is
    Y = Qt * A of size rank-by-n. *)
Theorem C5_Factorize_chain (A : Dense) (rk : Z) (w : World) :
  QRContract -> valid A -> 1 <= rk <= Rows A ->
  exists (P Zs QFull Q Y : Dense) (qr : QR) (r' : Rand),
    makeRandomMatrix (Cols A) rk (rnd w) = (Returns P, r') /\
    Dims P = (Cols A, rk) /\
    Zs = matmul A P /\ Dims Zs = (Rows A, rk) /\
    QR_Factorize Zs = Returns qr /\
    QR_QTo qr emptyDense = (Returns tt, QFull) /\
    Dims QFull = (Rows A, Rows A) /\
    Slice QFull 0 (Rows A) 0 rk = Returns Q /\
    Dims Q = (Rows A, rk) /\
    (forall i j, 0 <= i < Rows A -> 0 <= j < rk -> at_ Q i j = at_ QFull i j) /\
    Y = matmul (T Q) A /\ Dims Y = (rk, Cols A) /\
    Factorize A rk w
    = onSvd (SVD_Factorize Y SVDThin)
            {| self := stored (self w) (Rows A) Q; rnd := r' |}.
Proof.
  intros C HA Hrk.
  destruct (reducedMatrix_chain A rk w C HA Hrk)
    as (P & Zs & QFull & Q & Y & qr & r' & EP & DP & EZ & DZ & Eqr & EQF & DQF
        & EQ & HQ & EY & DY & E).
  exists P, Zs, QFull, Q, Y, qr, r'.
  repeat split; try assumption.
  - rewrite HQ. reflexivity.
  - intros i j Hi Hj. rewrite HQ. apply at_build; assumption.
  - rewrite Factorize_unfold. destruct (Z.ltb_spec rk 1); [lia |].
    rewrite (bind_step _ _ _ _ _ E). reflexivity.
Qed.

(** C9 (as amended). After a successful [Factorize A rank], [Values]
    returns exactly min(rank, n) singular values (rank of them when
    rank <= n), in non-increasing order and none negative; a slice that is
    not nil must have exactly that length, and any other length makes the
    call panic with ErrSliceLengthMismatch. *)
Theorem C9_Values_of_the_reduced_SVD (A : Dense) (rk : Z) (w w' : World) :
  SVDContract ->
  Factorize A rk w = (Returns true, w') ->
  exists vs : list float64,
    Values (self w') None = Returns vs /\
    Z.of_nat (length vs) = Z.min rk (Cols A) /\
    (rk <= Cols A -> Z.of_nat (length vs) = rk) /\
    descending vs /\ nonneg vs /\
    (forall sl : list float64,
        Values (self w') (Some sl) =
        if Nat.eqb (length sl) (length vs) then Returns vs
        else Panics ErrSliceLengthMismatch).
Proof.
  intros C R.
  destruct (Factorize_success A rk w w' C R)
    as (Q & sv & Hrk & Hm & Hn & HQ & Hs & vs & Uy & Vy & Hl & Hd & Hp & _ & _ & HV & _ & _).
  unfold matmul, T, build in Hl. cbn [Rows Cols] in Hl.
  injection HQ as _ HQc. rewrite HQc in Hl.
  exists vs. rewrite Hs. unfold Values. cbn [withState svd].
  repeat split; try assumption.
  - rewrite HV. reflexivity.
  - intros Hle. rewrite Hl. apply Z.min_l. exact Hle.
  - intros sl. rewrite HV. reflexivity.
Qed.

(** After a successful [Factorize A rank], [VTo] is the
    right-singular-vector extraction of the SVD collaborator over Y and
    nothing else (no back-projection); what it writes is n-by-min(rank, n),
    which is the documented n-by-rank exactly when rank <= n: an empty
    destination is resized to that shape, a non-empty one of another shape
    makes the call panic with ErrShape and is left as it was. *)
Lemma VTo_delegates (A : Dense) (rk : Z) (w w' : World) :
  SVDContract ->
  Factorize A rk w = (Returns true, w') ->
  exists (sv : SVD) (Vy : Dense),
    svd (self w') = Some sv /\
    (forall dst, VTo (self w') dst = SVD_VTo sv dst) /\
    Dims Vy = (Cols A, Z.min rk (Cols A)) /\
    (rk <= Cols A -> Dims Vy = (Cols A, rk)) /\
    (forall dst : Dense,
        VTo (self w') dst =
        if IsEmpty dst then (Returns tt, Vy)
        else if (Rows dst =? Cols A) && (Cols dst =? Z.min rk (Cols A))
             then (Returns tt, Vy)
             else (Panics ErrShape, dst)).
Proof.
  intros C R.
  destruct (Factorize_success A rk w w' C R)
    as (Q & sv & Hrk & Hm & Hn & HQ & Hs & vs & Uy & Vy & _ & _ & _ & _ & HVy & _ & _ & HVt).
  unfold matmul, T, build in HVy. cbn [Rows Cols] in HVy.
  injection HQ as _ HQc. rewrite HQc in HVy.
  exists sv, Vy. rewrite Hs. unfold VTo. cbn [withState svd].
  repeat split; try assumption.
  - intros Hle. rewrite HVy, Z.min_l by exact Hle. reflexivity.
  - intros dst. rewrite HVt. unfold extractTo.
    injection HVy as -> ->. reflexivity.
Qed.

End Claims.

(** ** Further facts about the code of mat/rsvd.go *)

Section MoreMonadFacts.

Context {S A B : Type}.

Lemma bind_Panics (c : M S A) (k : A -> M S B) (s s' : S) (e : panic_value) :
  bind c k s = (Panics e, s') ->
  c s = (Panics e, s') \/
  exists a s1, c s = (Returns a, s1) /\ k a s1 = (Panics e, s').
Proof.
  unfold bind. destruct (c s) as [[a | e0] s1]; intros E.
  - right. exists a, s1. split; [reflexivity | exact E].
  - left. inversion E. reflexivity.
Qed.

Lemma try_state (o o' : outcome A) (s s' : S) :
  try o s = (o', s') -> o = o' /\ s' = s.
Proof. unfold try. intros E. inversion E. split; reflexivity. Qed.

Lemma local_state {L : Type} (init : L) (c : M L A) (o : outcome L) (s s' : S) :
  local init c s = (o, s') -> s' = s.
Proof.
  unfold local. destruct (c init) as [[a | e] l]; intros E; inversion E; reflexivity.
Qed.

End MoreMonadFacts.

Section RandomMatrixFacts.

Context `{RandSource} `{!QRCollaborator} `{!SVDCollaborator}.

Lemma store_app (pre rest : list float64) (y x : float64) :
  store (pre ++ y :: rest) (length pre) x = pre ++ x :: rest.
Proof.
  induction pre as [| h t IH]; cbn; [reflexivity |]. rewrite IH. reflexivity.
Qed.

Lemma length_draws (k : nat) (r : Rand) : length (fst (draws k r)) = k.
Proof.
  revert r. induction k as [| k IH]; intros r; cbn [draws]; [reflexivity |].
  destruct (rand_Float64 r) as [x r1]. specialize (IH r1).
  destruct (draws k r1) as [l r2]. cbn in *. rewrite IH. reflexivity.
Qed.

(** The loop of [makeRandomMatrix] overwrites the rest of the buffer with
    the next draws, in order. *)
Lemma fillRandom_draws (k : nat) :
  forall (pre rest : list float64) (r : Rand),
    length rest = k ->
    fillRandom k (length pre) (pre ++ rest) r
    = (Returns (pre ++ fst (draws k r)), snd (draws k r)).
Proof.
  induction k as [| k IH]; intros pre rest r L.
  - destruct rest; [| discriminate L]. cbn. reflexivity.
  - destruct rest as [| y rest]; [discriminate L |].
    cbn [fillRandom draws]. unfold bind.
    destruct (rand_Float64 r) as [x r1].
    rewrite store_app.
    replace (Datatypes.S (length pre)) with (length (pre ++ [x]))
      by (rewrite length_app; cbn; lia).
    replace (pre ++ x :: rest) with ((pre ++ [x]) ++ rest)
      by (rewrite <- app_assoc; reflexivity).
    rewrite IH by (cbn in L; lia).
    destruct (draws k r1) as [l r2]. cbn [fst snd].
    rewrite <- app_assoc. reflexivity.
Qed.

(** The matrix [makeRandomMatrix] returns, and the random source it
    leaves. *)
Lemma makeRandomMatrix_draws (rows columns : Z) (r : Rand) :
  1 <= rows -> 1 <= columns -> rows * columns <= GoInt.maxInt ->
  makeRandomMatrix rows columns r
  = (Returns {| Rows := rows; Cols := columns;
                Data := fst (draws (Z.to_nat (rows * columns)) r) |},
     snd (draws (Z.to_nat (rows * columns)) r)).
Proof.
  intros Hr Hc Hfit. unfold makeRandomMatrix, GoInt.mul.
  rewrite wrap_small by (unfold GoInt.minInt, GoInt.maxInt in *; nia).
  unfold make_float64s.
  destruct (Z.ltb_spec (rows * columns) 0); [nia |].
  unfold bind at 1. unfold try at 1. rewrite repeat_length.
  pose proof (fillRandom_draws (Z.to_nat (rows * columns)) []
                (repeat f0 (Z.to_nat (rows * columns))) r
                (repeat_length _ _)) as E.
  cbn [length app] in E. unfold bind. rewrite E. unfold try, NewDense.
  destruct (Z.leb_spec rows 0); [lia |].
  destruct (Z.leb_spec columns 0); [lia |]. cbn [orb].
  rewrite length_draws, Z2Nat.id, Z.eqb_refl by nia. reflexivity.
Qed.

(** The random source after a run of [reducedMatrix] is the one
    [makeRandomMatrix] left: no later step draws. *)
Lemma reducedMatrix_rnd (A : Dense) (rk : Z) (w : World) :
  rnd (snd (reducedMatrix A rk w))
  = snd (makeRandomMatrix (Cols A) rk (rnd w)).
Proof.
  unfold reducedMatrix. cbn [Dims]. unfold bind at 1. unfold withRand at 1.
  destruct (makeRandomMatrix (Cols A) rk (rnd w)) as [[P | e] r]; [| reflexivity].
  cbn [snd].
  set (Pr := fun w' : World => rnd w' = r).
  match goal with |- rnd (snd (?c ?w0)) = r => change (Pr (snd (c w0))) end.
  repeat (first
    [ apply try_preserves
    | apply local_preserves
    | apply bind_preserves; [intros ? ? | intros ? ? ? |] ]);
    try assumption; reflexivity.
Qed.

Lemma Factorize_rnd (A : Dense) (rk : Z) (w : World) :
  1 <= rk ->
  rnd (snd (Factorize A rk w)) = snd (makeRandomMatrix (Cols A) rk (rnd w)).
Proof.
  intros Hrk. rewrite Factorize_unfold. destruct (Z.ltb_spec rk 1); [lia |].
  rewrite <- reducedMatrix_rnd. unfold bind.
  destruct (reducedMatrix A rk w) as [[Y | e] w1]; cbn [snd]; [| reflexivity].
  apply onSvd_frame.
Qed.

(** A buffer within the allocation limit has a length that fits an int. *)
Lemma maxAlloc_fits (n : Z) : 8 * n <= GoInt.maxAlloc -> n <= GoInt.maxInt.
Proof.
  unfold GoInt.maxAlloc, GoInt.maxInt.
  assert (E48 : 2 ^ 48 = 281474976710656) by reflexivity.
  assert (E63 : 2 ^ 63 = 9223372036854775808) by reflexivity.
  rewrite E48, E63. lia.
Qed.

(** A product of the counts that is zero or negative stops
    [makeRandomMatrix] before its loop. *)
Lemma makeRandomMatrix_nonpositive (rows columns : Z) (r : Rand) :
  GoInt.minInt <= rows * columns <= 0 ->
  makeRandomMatrix rows columns r
  = (Panics (if rows * columns <? 0 then MakeSliceLenOutOfRange
             else ErrZeroLength), r).
Proof.
  intros Hp. unfold makeRandomMatrix, GoInt.mul.
  rewrite wrap_small by (unfold GoInt.minInt, GoInt.maxInt in *; lia).
  unfold make_float64s.
  destruct (Z.ltb_spec (rows * columns) 0) as [Hneg | Hnn]; [reflexivity |].
  assert (E0 : rows * columns = 0) by lia. rewrite E0.
  cbn [Z.to_nat repeat length fillRandom]. unfold bind, try, ret, NewDense.
  apply Z.mul_eq_0 in E0.
  destruct (Z.eqb_spec rows 0) as [-> | Hr0].
  - cbn. reflexivity.
  - destruct E0 as [E0 | E0]; [contradiction |]. subst columns.
    destruct (rows <=? 0); cbn; reflexivity.
Qed.

End RandomMatrixFacts.

Section ReceiverFacts.

Context `{RandSource} `{!QRCollaborator} `{!SVDCollaborator}.

(** A step that panicked with the state it was given. *)
Ltac stopped := intros E; cbn in E; inversion E; reflexivity.

(** A panic of [reducedMatrix] comes before the two stores: the receiver is
    as it was. *)
Lemma reducedMatrix_Panics_self (A : Dense) (rk : Z) (w w' : World)
      (e : panic_value) :
  reducedMatrix A rk w = (Panics e, w') -> self w' = self w.
Proof.
  unfold reducedMatrix. cbn [Dims].
  unfold bind at 1. unfold withRand at 1.
  destruct (makeRandomMatrix (Cols A) rk (rnd w)) as [[P | e0] r]; [| stopped].
  unfold bind at 1. unfold try at 1.
  destruct (NewDense (Rows A) rk None) as [Z0 | e0]; [| stopped].
  unfold bind at 1. unfold local at 1.
  destruct (Mul A P Z0) as [[u | e0] Zs]; [| stopped].
  unfold bind at 1. unfold try at 1.
  destruct (QR_Factorize Zs) as [qr | e0]; [| stopped].
  unfold bind at 1. unfold local at 1.
  destruct (QR_QTo qr emptyDense) as [[u1 | e0] QFull]; [| stopped].
  unfold bind at 1. unfold try at 1.
  destruct (Slice QFull 0 (Rows A) 0 rk) as [Q | e0]; [| stopped].
  unfold bind at 1. unfold try at 1.
  destruct (NewDense rk (Cols A) None) as [Y0 | e0]; [| stopped].
  unfold bind at 1. unfold local at 1.
  destruct (Mul (T Q) A Y0) as [[u2 | e0] Y]; [| stopped].
  intros E. cbn in E. discriminate E.
Qed.

(** What a returning run of [reducedMatrix] got from the QR collaborator,
    and the bound the truncation checked. *)
Lemma reducedMatrix_Returns_QFull (A Y : Dense) (rk : Z) (w w1 : World) :
  reducedMatrix A rk w = (Returns Y, w1) ->
  exists (Zs QFull : Dense) (qr : QR) (u : unit),
    Rows Zs = Rows A /\
    QR_Factorize Zs = Returns qr /\
    QR_QTo qr emptyDense = (Returns u, QFull) /\
    rk <= Cols QFull /\ Rows A <= Rows QFull.
Proof.
  unfold reducedMatrix. cbn [Dims]. intros R.
  apply bind_Returns in R as (P & w2 & HP & R).
  apply bind_Returns in R as (Z0 & w3 & HZ0 & R).
  apply bind_Returns in R as (Zs & w4 & HZ & R).
  apply bind_Returns in R as (qr & w5 & Hqr & R).
  apply bind_Returns in R as (QFull & w6 & HQF & R).
  apply bind_Returns in R as (Q & w7 & HQ & _).
  apply local_Returns in HZ as (u3 & HZ & ->).
  apply try_Returns in Hqr as [Hqr ->].
  apply local_Returns in HQF as (u4 & HQF & ->).
  apply try_Returns in HQ as [HQ ->].
  apply Mul_Returns in HZ as (_ & -> & _).
  apply Slice_Returns in HQ as (_ & _ & HQr & _ & HQc).
  exists (matmul A P), QFull, qr, u4.
  repeat split; try assumption; lia.
Qed.

(** What a returning run of [UTo] has read and written. *)
Lemma UTo_Returns_inv (r : RSVD) (dst dst' : Dense) (u : unit) :
  UTo r dst = (Returns u, dst') ->
  exists (sv : SVD) (Q Uy : Dense) (u0 : unit),
    svd r = Some sv /\ q r = Some Q /\
    SVD_UTo sv emptyDense = (Returns u0, Uy) /\
    1 <= m r /\ 1 <= rank r /\
    Rows Q = m r /\ Cols Q = Rows Uy /\ Cols Uy = rank r /\
    (IsEmpty dst = true \/ Dims dst = (m r, rank r)) /\
    dst' = matmul Q Uy.
Proof.
  unfold UTo. intros R.
  apply bind_Returns in R as (Uy & s1 & HUy & R).
  destruct (svd r) as [sv |]; [| discriminate HUy].
  apply local_Returns in HUy as (u0 & HUy & ->).
  apply bind_Returns in R as (U0 & s2 & HU0 & R).
  apply try_Returns in HU0 as [HU0 ->].
  apply NewDense_nil in HU0 as (Hm & Hrk & ->).
  apply bind_Returns in R as (U & s3 & HU & R).
  destruct (q r) as [Q |]; [| discriminate HU].
  apply local_Returns in HU as (u1 & HU & ->).
  apply Mul_Returns in HU as (Hin & -> & Hshape).
  destruct Hshape as [Hemp | [HQr HUc]].
  { unfold IsEmpty, build in Hemp. cbn [Cols] in Hemp.
    apply Z.eqb_eq in Hemp. lia. }
  cbn [build Rows Cols] in HQr, HUc.
  apply bind_Returns in R as (u2 & s4 & Hd & R).
  apply bind_Returns in R as (rc & s5 & HC & R).
  unfold ret in R. inversion R; subst s5; clear R.
  assert (HM : matmul Q Uy = build (m r) (rank r) (dot Q Uy)).
  { unfold matmul. rewrite <- HQr, <- HUc. reflexivity. }
  exists sv, Q, Uy, u0.
  repeat split; try assumption; try lia.
  - destruct (IsEmpty dst) eqn:Ee; [left; reflexivity | right].
    unfold Dims in *.
    destruct (Z.eqb_spec (m r) (Rows dst)); cbn [negb orb] in Hd; [| discriminate Hd].
    destruct (Z.eqb_spec (rank r) (Cols dst)); cbn [negb] in Hd; [| discriminate Hd].
    congruence.
  - rewrite HM in HC |- *.
    destruct (IsEmpty dst) eqn:Ee.
    + unfold ReuseAs in Hd. rewrite Ee in Hd.
      destruct (Z.leb_spec (m r) 0); [lia |].
      destruct (Z.leb_spec (rank r) 0); [lia |].
      cbn [orb negb] in Hd. inversion Hd; subst s4; clear Hd.
      rewrite Copy_same_shape in HC by (reflexivity || lia).
      inversion HC. reflexivity.
    + unfold Dims in Hd.
      destruct (Z.eqb_spec (m r) (Rows dst)); cbn [negb orb] in Hd; [| discriminate Hd].
      destruct (Z.eqb_spec (rank r) (Cols dst)); cbn [negb] in Hd; [| discriminate Hd].
      inversion Hd; subst s4; clear Hd.
      rewrite Copy_same_shape in HC by (lia || congruence).
      inversion HC. reflexivity.
Qed.

(** A run of [UTo] that panics has not written its destination. *)
Lemma UTo_Panics_inv (r : RSVD) (dst dst' : Dense) (e : panic_value) :
  UTo r dst = (Panics e, dst') -> dst' = dst.
Proof.
  unfold UTo. unfold bind at 1.
  destruct (svd r) as [sv |]; [| stopped].
  unfold local at 1.
  destruct (SVD_UTo sv emptyDense) as [[u | e0] Uy]; [| stopped].
  unfold bind at 1. unfold try at 1.
  destruct (NewDense (m r) (rank r) None) as [U0 | e0]; [| stopped].
  unfold bind at 1.
  destruct (q r) as [Q |]; [| stopped].
  unfold local at 1.
  destruct (Mul Q Uy U0) as [[u' | e0] U]; [| stopped].
  unfold bind at 1.
  destruct (IsEmpty dst) eqn:Ee.
  - unfold ReuseAs. rewrite Ee.
    destruct ((m r <=? 0) || (rank r <=? 0));
      [destruct ((m r =? 0) || (rank r =? 0)); stopped |].
    cbn [negb]. unfold bind, Copy, ret.
    match goal with |- context [if ?c then _ else _] => destruct c end;
      intros E; discriminate E.
  - unfold Dims.
    destruct (negb (m r =? Rows dst) || negb (rank r =? Cols dst)); [stopped |].
    unfold bind, Copy, ret.
    match goal with |- context [if ?c then _ else _] => destruct c end;
      intros E; discriminate E.
Qed.

End ReceiverFacts.

(** ** Further properties, for every collaborator *)

Section FurtherProperties.

Context `{RandSource} `{!QRCollaborator} `{!SVDCollaborator}.

(** X1. For positive counts whose buffer of rows*columns float64 is within
    the runtime's allocation limit, [makeRandomMatrix] returns a
    rows-by-columns matrix filled in row-major order with the next
    rows*columns values of rand.Float64(): element (i, j) is draw number
    i*columns + j, and the random source is left after exactly that many
    draws. *)
Theorem X1_makeRandomMatrix_row_major_draws (rows columns : Z) (r : Rand) :
  1 <= rows -> 1 <= columns -> 8 * (rows * columns) <= GoInt.maxAlloc ->
  exists P : Dense,
    makeRandomMatrix rows columns r
    = (Returns P, snd (draws (Z.to_nat (rows * columns)) r)) /\
    Dims P = (rows, columns) /\
    Z.of_nat (length (Data P)) = rows * columns /\
    (forall i j, 0 <= i < rows -> 0 <= j < columns ->
       at_ P i j
       = nth (Z.to_nat (i * columns + j))
             (fst (draws (Z.to_nat (rows * columns)) r)) f0).
Proof.
  intros Hr Hc Hfit. apply maxAlloc_fits in Hfit.
  eexists. split; [| split; [| split]].
  - apply makeRandomMatrix_draws; assumption.
  - reflexivity.
  - cbn [Data]. rewrite length_draws. apply Z2Nat.id. nia.
  - intros i j Hi Hj. reflexivity.
Qed.

(** X2. When the product of the two counts is zero or negative (and fits an
    int), [makeRandomMatrix] panics without drawing: with the runtime's
    makeslice panic for a negative product, with ErrZeroLength for a zero
    one, and the random source is untouched. *)
Theorem X2_makeRandomMatrix_fails_before_drawing (rows columns : Z) (r : Rand) :
  GoInt.minInt <= rows * columns <= 0 ->
  makeRandomMatrix rows columns r
  = (Panics (if rows * columns <? 0 then MakeSliceLenOutOfRange
             else ErrZeroLength), r).
Proof. exact (makeRandomMatrix_nonpositive rows columns r). Qed.

(** X3. With two negative counts (and a buffer of rows*columns float64
    within the runtime's allocation limit) [makeRandomMatrix] draws first
    and fails afterwards: the product is positive, the buffer is filled with
    rows*columns draws, and only then the construction of the matrix panics
    with ErrNegativeDimension. *)
Theorem X3_makeRandomMatrix_negative_counts (rows columns : Z) (r : Rand) :
  rows < 0 -> columns < 0 -> 8 * (rows * columns) <= GoInt.maxAlloc ->
  makeRandomMatrix rows columns r
  = (Panics ErrNegativeDimension, snd (draws (Z.to_nat (rows * columns)) r)).
Proof.
  intros Hr Hc Hfit. apply maxAlloc_fits in Hfit.
  unfold makeRandomMatrix, GoInt.mul.
  rewrite wrap_small by (unfold GoInt.minInt, GoInt.maxInt in *; nia).
  unfold make_float64s.
  destruct (Z.ltb_spec (rows * columns) 0); [nia |].
  unfold bind at 1. unfold try at 1. rewrite repeat_length.
  pose proof (fillRandom_draws (Z.to_nat (rows * columns)) []
                (repeat f0 (Z.to_nat (rows * columns))) r
                (repeat_length _ _)) as E.
  cbn [length app] in E. unfold bind. rewrite E. unfold try, NewDense.
  destruct (Z.leb_spec rows 0); [| lia]. cbn [orb].
  destruct (Z.eqb_spec rows 0); [lia |].
  destruct (Z.eqb_spec columns 0); [lia |]. reflexivity.
Qed.

(** X4. A call of [Factorize] with rank >= 1 on a matrix with n >= 1
    columns (the n*rank float64 of the projector within the runtime's
    allocation limit) advances the global random source by exactly n*rank
    draws, whether it then returns or panics: the projector is the only
    consumer. *)
Theorem X4_Factorize_draws_n_times_rank (A : Dense) (rk : Z) (w : World) :
  1 <= rk -> 1 <= Cols A -> 8 * (Cols A * rk) <= GoInt.maxAlloc ->
  rnd (snd (Factorize A rk w))
  = snd (draws (Z.to_nat (Cols A * rk)) (rnd w)).
Proof.
  intros Hrk Hn Hfit. apply maxAlloc_fits in Hfit.
  rewrite Factorize_rnd by exact Hrk.
  rewrite makeRandomMatrix_draws by assumption. reflexivity.
Qed.

(** X5. When a step of [Factorize] before the two stores panics (the
    projector, the sketch, the QR factorization, the truncation or the
    reduced product), [Factorize] panics with that value and the receiver is
    exactly as it was before the call. *)
Theorem X5_early_panic_keeps_the_receiver
        (A : Dense) (rk : Z) (w w' : World) (e : panic_value) :
  1 <= rk ->
  reducedMatrix A rk w = (Panics e, w') ->
  Factorize A rk w = (Panics e, w') /\ self w' = self w.
Proof.
  intros Hrk R. split.
  - rewrite Factorize_unfold. destruct (Z.ltb_spec rk 1); [lia |].
    apply bind_stop. exact R.
  - exact (reducedMatrix_Panics_self A rk w w' e R).
Qed.

(** X6. [Factorize] does not roll back: for a valid A and 1 <= rank <= m,
    whatever the call of the SVD does afterwards (return true or false,
    panic, or hit a nil svd field), the receiver then holds m and the basis
    Q of this very call, that is the first rank columns of the orthogonal
    factor the QR collaborator gave for A * P, with P the projector drawn in
    this call; its rank field is the old one. *)
Theorem X6_Factorize_stores_before_the_SVD (A : Dense) (rk : Z) (w : World) :
  QRContract -> valid A -> 1 <= rk <= Rows A ->
  exists (P QFull Q : Dense) (qr : QR) (r' : Rand),
    makeRandomMatrix (Cols A) rk (rnd w) = (Returns P, r') /\
    QR_Factorize (matmul A P) = Returns qr /\
    QR_QTo qr emptyDense = (Returns tt, QFull) /\
    Slice QFull 0 (Rows A) 0 rk = Returns Q /\
    Dims Q = (Rows A, rk) /\
    m (self (snd (Factorize A rk w))) = Rows A /\
    q (self (snd (Factorize A rk w))) = Some Q /\
    rank (self (snd (Factorize A rk w))) = rank (self w).
Proof.
  intros C HA Hrk.
  destruct (reducedMatrix_chain A rk w C HA Hrk)
    as (P & Zs & QFull & Q & Y & qr & r' & EP & _ & EZ & _ & Eqr & EQF & _ & EQ
        & HQ & _ & _ & E).
  subst Zs.
  exists P, QFull, Q, qr, r'.
  split; [exact EP |]. split; [exact Eqr |]. split; [exact EQF |].
  split; [exact EQ |]. split; [rewrite HQ; reflexivity |].
  split; [| split; [| apply Factorize_keeps_rank]].
  - rewrite Factorize_unfold. destruct (Z.ltb_spec rk 1); [lia |].
    rewrite (bind_step _ _ _ _ _ E).
    destruct (onSvd_frame (SVD_Factorize Y SVDThin)
                {| self := stored (self w) (Rows A) Q; rnd := r' |})
      as (_ & _ & Hm & _).
    rewrite Hm. reflexivity.
  - rewrite Factorize_unfold. destruct (Z.ltb_spec rk 1); [lia |].
    rewrite (bind_step _ _ _ _ _ E).
    destruct (onSvd_frame (SVD_Factorize Y SVDThin)
                {| self := stored (self w) (Rows A) Q; rnd := r' |})
      as (_ & Hq & _).
    rewrite Hq. reflexivity.
Qed.

(** X7. Whenever [UTo] returns, on any receiver and with any SVD
    collaborator, the svd and q fields were not nil, the stored m and rank
    were at least 1, the destination was empty or already m-by-rank, and the
    destination now holds exactly Q * Uy, of shape m-by-rank, where Uy is what
    the SVD wrote into an empty matrix. *)
Theorem X7_UTo_result (r : RSVD) (dst dst' : Dense) (u : unit) :
  UTo r dst = (Returns u, dst') ->
  exists (sv : SVD) (Q Uy : Dense) (u0 : unit),
    svd r = Some sv /\ q r = Some Q /\
    SVD_UTo sv emptyDense = (Returns u0, Uy) /\
    1 <= m r /\ 1 <= rank r /\
    (IsEmpty dst = true \/ Dims dst = (m r, rank r)) /\
    dst' = matmul Q Uy /\
    Dims dst' = (m r, rank r).
Proof.
  intros R.
  destruct (UTo_Returns_inv r dst dst' u R)
    as (sv & Q & Uy & u0 & Hsv & Hq & HU & Hm & Hrk & HQr & _ & HUc & Hd & ->).
  exists sv, Q, Uy, u0. repeat split; try assumption.
  unfold Dims, matmul, build. cbn [Rows Cols]. congruence.
Qed.

(** X8. [UTo] writes all or nothing: whenever it panics, for any reason,
    the destination holds exactly what it held before the call. *)
Theorem X8_UTo_panic_leaves_dst
        (r : RSVD) (dst dst' : Dense) (e : panic_value) :
  UTo r dst = (Panics e, dst') -> dst' = dst.
Proof. exact (UTo_Panics_inv r dst dst' e). Qed.

(** X9. On a receiver whose rank field is not positive (the zero value, or
    RSVD{svd: &SVD{}}), [UTo] panics after every call of [Factorize],
    successful or not, and leaves its destination untouched: [Factorize]
    never writes the field [UTo] sizes U with. *)
Theorem X9_UTo_after_Factorize_without_rank
        (A : Dense) (rk : Z) (w : World) (dst : Dense) :
  rank (self w) <= 0 ->
  exists e : panic_value,
    UTo (self (snd (Factorize A rk w))) dst = (Panics e, dst).
Proof.
  intros Hr.
  destruct (UTo (self (snd (Factorize A rk w))) dst) as [[u | e] dst'] eqn:E.
  - apply UTo_Returns_inv in E as (_ & _ & _ & _ & _ & _ & _ & _ & Hrk & _).
    rewrite Factorize_keeps_rank in Hrk. lia.
  - exists e. rewrite (UTo_Panics_inv _ _ _ _ E). reflexivity.
Qed.

(** X10. [Factorize] returns a flag (true or false) only if rank >= 1, A has
    at least one row and one column, the svd field was not nil and, with a
    QR collaborator whose orthogonal factor is the full m-by-m one,
    rank <= m; the receiver then holds m, an m-by-rank Q and an SVD, with the
    rank field unchanged. *)
Theorem X10_Factorize_returns_only_if
        (A : Dense) (rk : Z) (w w' : World) (b : bool) :
  QRFullFactor ->
  Factorize A rk w = (Returns b, w') ->
  1 <= rk <= Rows A /\ 1 <= Cols A /\
  svd (self w) <> None /\ svd (self w') <> None /\
  m (self w') = Rows A /\
  (exists Q, q (self w') = Some Q /\ Dims Q = (Rows A, rk)) /\
  rank (self w') = rank (self w).
Proof.
  intros C R.
  apply Factorize_Returns in R as (Hrk & Y & w1 & sv & sv' & HY & Hsv & _ & ->).
  destruct (reducedMatrix_Returns_QFull A Y rk w w1 HY)
    as (Zs & QFull & qr & u & HZ & Hqr & HQF & Hc & _).
  pose proof (C Zs QFull qr u Hqr HQF) as D. injection D as _ Dc.
  apply reducedMatrix_Returns in HY as (Q & _ & Hm & Hn & HQ & _ & Hs).
  rewrite Hs in Hsv. cbn [stored svd] in Hsv.
  cbn [self]. rewrite Hs. cbn [withState stored svd q m rank].
  repeat split; try assumption; try lia; try congruence.
  exists Q. split; [reflexivity | exact HQ].
Qed.

(** X11. [Factorize] on a matrix without columns (the zero value of Dense
    among them), with rank >= 1, panics with ErrZeroLength before anything
    is drawn or stored: receiver and random source are as before. *)
Theorem X11_Factorize_of_an_empty_matrix (A : Dense) (rk : Z) (w : World) :
  Cols A = 0 -> 1 <= rk ->
  Factorize A rk w = (Panics ErrZeroLength, w).
Proof.
  intros Hn Hrk. rewrite Factorize_unfold. destruct (Z.ltb_spec rk 1); [lia |].
  apply bind_stop. unfold reducedMatrix. cbn [Dims]. apply bind_stop.
  unfold withRand. rewrite Hn.
  rewrite makeRandomMatrix_nonpositive
    by (unfold GoInt.minInt; cbn; lia).
  cbn. destruct w. reflexivity.
Qed.

(** X12. With a QR collaborator whose orthogonal factor is the full m-by-m
    one, a rank above the number of rows m never gets through: [Factorize]
    panics, and the receiver is exactly as it was before the call, so an
    earlier factorization stays in place. *)
Theorem X12_rank_above_m_is_rejected (A : Dense) (rk : Z) (w : World) :
  QRFullFactor -> Rows A < rk ->
  exists (e : panic_value) (w' : World),
    Factorize A rk w = (Panics e, w') /\ self w' = self w.
Proof.
  intros C Hrk. rewrite Factorize_unfold.
  destruct (Z.ltb_spec rk 1) as [Hlt | Hge].
  - exists (RankTooSmall rk 1), w. split; reflexivity.
  - destruct (reducedMatrix A rk w) as [[Y | e] w1] eqn:E.
    + exfalso.
      destruct (reducedMatrix_Returns_QFull A Y rk w w1 E)
        as (Zs & QFull & qr & u & HZ & Hqr & HQF & Hc & _).
      pose proof (C Zs QFull qr u Hqr HQF) as D. injection D as _ Dc. lia.
    + exists e, w1. split.
      * apply bind_stop. exact E.
      * exact (reducedMatrix_Panics_self A rk w w1 e E).
Qed.

End FurtherProperties.

(** ** Runs on the exact instance *)

Import Exact.
#[local] Existing Instance Zfloat.
#[local] Existing Instance zeroRand.
#[local] Existing Instance identityQR.
#[local] Existing Instance diagSVD.

(** The dense model at work: a product, a transpose and a sub-block. *)
Example matmul_2x2 :
  matmul (ofRows [[1; 2]; [3; 4]]) (ofRows [[5; 6]; [7; 8]])
  = ofRows [[19; 22]; [43; 50]].
Proof. reflexivity. Qed.

Example transpose_3x2 :
  T (ofRows [[1; 2]; [3; 4]; [5; 6]]) = ofRows [[1; 3; 5]; [2; 4; 6]].
Proof. reflexivity. Qed.

Example slice_leading_column :
  Slice (ofRows [[1; 2]; [3; 4]]) 0 2 0 1 = Returns (ofRows [[1]; [3]]).
Proof. reflexivity. Qed.

Example slice_past_the_columns :
  Slice (ofRows [[1]]) 0 1 0 2 = Panics ErrIndexOutOfRange.
Proof. reflexivity. Qed.

(** A whole run: rank-2 factorization of diag(3, 2), then the accessors. *)
Example run_diag_3_2 :
  fst (Factorize A22 2 (world (withSVD 2))) = Returns true /\
  Values (self (snd (Factorize A22 2 (world (withSVD 2))))) None = Returns [3; 2] /\
  UTo (self (snd (Factorize A22 2 (world (withSVD 2))))) emptyDense
  = (Returns tt, ofRows [[1; 0]; [0; 1]]) /\
  VTo (self (snd (Factorize A22 2 (world (withSVD 2))))) emptyDense
  = (Returns tt, ofRows [[1; 0]; [0; 1]]).
Proof. vm_compute. repeat split. Qed.

Lemma valid_A22 : valid A22.
Proof. unfold valid, GoInt.maxInt. cbn. lia. Qed.

(** C1, the code against its documentation: on a receiver whose rank field
    holds the rank, [Factorize] of a 3-by-1 matrix with rank 2 returns true,
    and the next [UTo] on an empty destination panics with ErrShape where
    its doc comment promises a resize to m-by-rank. *)
Lemma C1_UTo_invalid_after_success :
  fst (Factorize A31 2 (world (withSVD 2))) = Returns true /\
  UTo (self (snd (Factorize A31 2 (world (withSVD 2))))) emptyDense
  = (Panics ErrShape, emptyDense).
Proof. vm_compute. split; reflexivity. Qed.

(** C2, the claim as stated fails: on the zero-valued receiver,
    [Factorize] of a 1-by-1 matrix with rank 2 panics before the svd field
    is used, with a panic that is not the nil dereference. *)
Lemma C2_panic_before_the_nil_dereference :
  exists e : panic_value,
    fst (Factorize A11 2 (world zeroRSVD)) = Panics e /\ e <> NilDereference.
Proof. exists ErrShape. split; [vm_compute; reflexivity | discriminate]. Qed.

(** C2 at diag(3, 2) and rank 2 on the zero-valued receiver. *)
Lemma C2_witness :
  QRContract /\ valid A22 /\ 1 <= 2 <= Rows A22 /\
  fst (Factorize A22 2 (world zeroRSVD)) = Panics NilDereference.
Proof.
  split; [exact identityQR_contract |]. split; [exact valid_A22 |].
  split; [vm_compute; split; discriminate |].
  destruct (C2_zero_value_receiver_panics A22 2 (rnd (world zeroRSVD)) None emptyDense)
    as (_ & _ & _ & Hq & _).
  apply Hq; [exact identityQR_contract | exact valid_A22 |].
  vm_compute; split; discriminate.
Defined.

(** C3, the rank field is never written: [Factorize] with rank 2 on a
    receiver built as RSVD{svd: &SVD{}} returns true and leaves 0 in the
    rank field, next to the stored m = 2 and Q; on the zero-valued receiver
    the field holds 0 after the call as well. *)
Theorem C3_rank_field_is_not_stored :
  fst (Factorize A22 2 (world (withSVD 0))) = Returns true /\
  rank (self (snd (Factorize A22 2 (world (withSVD 0))))) = 0 /\
  m (self (snd (Factorize A22 2 (world (withSVD 0))))) = 2 /\
  q (self (snd (Factorize A22 2 (world (withSVD 0))))) = Some (identity 2 2) /\
  rank (self (snd (Factorize A22 2 (world zeroRSVD)))) = 0.
Proof. vm_compute. repeat split. Qed.

(** C4, the code against its documentation: after a successful [Factorize]
    of a 2-by-1 matrix with rank 2, the left vectors of the reduced SVD are
    2-by-1, not rank-by-rank as the comment in [UTo] takes them to be, and
    [UTo] panics with ErrShape on an empty destination instead of writing an
    m-by-rank matrix. *)
Lemma C4_UTo_panics_for_rank_above_n :
  fst (Factorize A21 2 (world (withSVD 2))) = Returns true /\
  (exists sv Uy,
      svd (self (snd (Factorize A21 2 (world (withSVD 2))))) = Some sv /\
      SVD_UTo sv emptyDense = (Returns tt, Uy) /\ Dims Uy = (2, 1)) /\
  UTo (self (snd (Factorize A21 2 (world (withSVD 2))))) emptyDense
  = (Panics ErrShape, emptyDense).
Proof.
  split; [vm_compute; reflexivity |]. split; [| vm_compute; reflexivity].
  eexists _, _. split; [vm_compute; reflexivity |].
  split; vm_compute; reflexivity.
Qed.

(** C5, the claim as stated fails: for a 1-by-1 matrix and rank 2 there is
    no truncation to the first 2 columns and no reduced matrix; the run
    panics before the SVD collaborator is called. *)
Lemma C5_no_chain_for_rank_above_m :
  fst (reducedMatrix A11 2 (world (withSVD 2))) = Panics ErrShape /\
  fst (Factorize A11 2 (world (withSVD 2))) = Panics ErrShape /\
  ~ (exists Y w1, reducedMatrix A11 2 (world (withSVD 2)) = (Returns Y, w1)).
Proof.
  split; [vm_compute; reflexivity |]. split; [vm_compute; reflexivity |].
  intros (Y & w1 & E).
  assert (F : fst (reducedMatrix A11 2 (world (withSVD 2))) = Panics ErrShape)
    by (vm_compute; reflexivity).
  rewrite E in F. discriminate F.
Qed.

(** C5 at diag(3, 2) and rank 2. *)
Lemma C5_witness :
  QRContract /\ valid A22 /\ 1 <= 2 <= Rows A22 /\
  exists Y : Dense,
    Dims Y = (2, Cols A22) /\
    exists w1, Factorize A22 2 (world (withSVD 2))
               = onSvd (SVD_Factorize Y SVDThin) w1.
Proof.
  split; [exact identityQR_contract |]. split; [exact valid_A22 |].
  split; [vm_compute; split; discriminate |].
  destruct (C5_Factorize_chain
              A22 2 (world (withSVD 2))
              identityQR_contract valid_A22
              ltac:(vm_compute; split; discriminate))
    as (P & Zs & QFull & Q & Y & qr & r' & _ & _ & _ & _ & _ & _ & _ & _ & _ & _
        & _ & DY & E).
  exists Y. split; [exact DY |]. eexists. exact E.
Defined.

(** C6 at rank 0. *)
Lemma C6_witness :
  0 <= 0 /\
  Factorize A22 0 (world (withSVD 2))
  = (Panics (RankTooSmall 0 1), world (withSVD 2)).
Proof.
  split; [lia |].
  exact (proj1 (C6_Factorize_rank_too_small
                  A22 0 (world (withSVD 2)) ltac:(lia))).
Defined.

(** C7: a call with rank 0 after the rank-2 factorization of diag(3, 2). *)
Lemma C7_witness :
  0 < 1 /\
  Values (self (snd (Factorize A22 0 (snd (Factorize A22 2 (world (withSVD 2))))))) None
  = Values (self (snd (Factorize A22 2 (world (withSVD 2))))) None.
Proof.
  split; [lia |].
  destruct (C7_failed_rank_check_keeps_the_factorization
              A22 0 (snd (Factorize A22 2 (world (withSVD 2)))) ltac:(lia))
    as (_ & _ & HV & _).
  apply HV.
Defined.

(** C8: a 1-by-1 destination after the rank-2 factorization of diag(3, 2). *)
Lemma C8_witness :
  IsEmpty (ofRows [[7]]) = false /\
  Dims (ofRows [[7]]) <> (2, 2) /\
  exists e : panic_value,
    UTo (self (snd (Factorize A22 2 (world (withSVD 2))))) (ofRows [[7]])
    = (Panics e, ofRows [[7]]).
Proof.
  split; [reflexivity |]. split; [vm_compute; discriminate |].
  apply C8_UTo_wrong_shape_leaves_dst; [reflexivity | vm_compute; discriminate].
Defined.

(** C9, the claim as stated fails: after a successful [Factorize] of a
    3-by-1 matrix with rank 2, [Values] returns one singular value, not
    two. *)
Lemma C9_one_value_for_rank_two :
  fst (Factorize A31 2 (world (withSVD 2))) = Returns true /\
  Values (self (snd (Factorize A31 2 (world (withSVD 2))))) None = Returns [3] /\
  length [3] <> 2%nat.
Proof. split; [| split]; [vm_compute; reflexivity .. | discriminate]. Qed.

(** C9 at the rank-2 factorization of diag(3, 2). *)
Lemma C9_witness :
  SVDContract /\
  exists vs : list Z,
    Values (self (snd (Factorize A22 2 (world (withSVD 2))))) None = Returns vs /\
    Z.of_nat (length vs) = 2.
Proof.
  split; [exact diagSVD_contract |].
  destruct (C9_Values_of_the_reduced_SVD
              A22 2 (world (withSVD 2))
              (snd (Factorize A22 2 (world (withSVD 2))))
              diagSVD_contract ltac:(apply run_eq; vm_compute; reflexivity))
    as (vs & HV & _ & Hl & _).
  exists vs. split; [exact HV |]. apply Hl. vm_compute. discriminate.
Defined.

(** C10, the code against its documentation: after a successful
    [Factorize] of a 3-by-1 matrix with rank 2, [VTo] resizes an empty
    destination to 1-by-1, where its doc comment promises
    n-by-rank = 1-by-2. *)
Lemma C10_VTo_shape_for_rank_above_n :
  fst (Factorize A31 2 (world (withSVD 0))) = Returns true /\
  exists V : Dense,
    VTo (self (snd (Factorize A31 2 (world (withSVD 0))))) emptyDense
    = (Returns tt, V) /\
    Dims V = (1, 1) /\ Dims V <> (1, 2).
Proof.
  split; [vm_compute; reflexivity |].
  eexists. split; [vm_compute; reflexivity |].
  split; [reflexivity | discriminate].
Qed.


(** *** The further properties on the exact instance *)

Lemma identityQR_full_factor : QRFullFactor.
Proof.
  intros Z Qf qr u E1 E2. cbn in E1.
  destruct (Rows Z <? Cols Z); inversion E1; subst; clear E1.
  cbn in E2. inversion E2. reflexivity.
Qed.

(** X1 at a 2-by-2 projector. *)
Lemma X1_witness :
  1 <= 2 /\ 8 * (2 * 2) <= GoInt.maxAlloc /\
  exists P : Dense,
    makeRandomMatrix 2 2 (rnd (world zeroRSVD))
    = (Returns P, snd (draws 4 (rnd (world zeroRSVD)))) /\
    Dims P = (2, 2).
Proof.
  split; [lia |]. split; [vm_compute; discriminate |].
  destruct (X1_makeRandomMatrix_row_major_draws
              2 2 (rnd (world zeroRSVD))
              ltac:(lia) ltac:(lia) ltac:(vm_compute; discriminate))
    as (P & E & D & _).
  exists P. split; [exact E | exact D].
Defined.

(** X2 at -1 rows and 2 columns. *)
Lemma X2_witness :
  GoInt.minInt <= -1 * 2 <= 0 /\
  makeRandomMatrix (-1) 2 (rnd (world zeroRSVD))
  = (Panics MakeSliceLenOutOfRange, rnd (world zeroRSVD)).
Proof.
  split; [vm_compute; split; discriminate |].
  exact (X2_makeRandomMatrix_fails_before_drawing
           (-1) 2 (rnd (world zeroRSVD))
           ltac:(vm_compute; split; discriminate)).
Defined.

(** X3 at -1 rows and -2 columns. *)
Lemma X3_witness :
  -1 < 0 /\ -2 < 0 /\ 8 * (-1 * -2) <= GoInt.maxAlloc /\
  makeRandomMatrix (-1) (-2) (rnd (world zeroRSVD))
  = (Panics ErrNegativeDimension, snd (draws 2 (rnd (world zeroRSVD)))).
Proof.
  split; [lia |]. split; [lia |]. split; [vm_compute; discriminate |].
  exact (X3_makeRandomMatrix_negative_counts
           (-1) (-2) (rnd (world zeroRSVD))
           ltac:(lia) ltac:(lia) ltac:(vm_compute; discriminate)).
Defined.

(** X4 at the rank-2 factorization of diag(3, 2): four draws. *)
Lemma X4_witness :
  1 <= 2 /\ 1 <= Cols A22 /\ 8 * (Cols A22 * 2) <= GoInt.maxAlloc /\
  rnd (snd (Factorize A22 2 (world (withSVD 2))))
  = snd (draws 4 (rnd (world (withSVD 2)))).
Proof.
  split; [lia |]. split; [vm_compute; discriminate |].
  split; [vm_compute; discriminate |].
  exact (X4_Factorize_draws_n_times_rank
           A22 2 (world (withSVD 2))
           ltac:(lia) ltac:(vm_compute; discriminate)
           ltac:(vm_compute; discriminate)).
Defined.

(** X5 at a 1-by-1 matrix and rank 2, where the QR step panics. *)
Lemma X5_witness :
  1 <= 2 /\
  fst (reducedMatrix A11 2 (world (withSVD 2))) = Panics ErrShape /\
  self (snd (reducedMatrix A11 2 (world (withSVD 2)))) = self (world (withSVD 2)).
Proof.
  split; [lia |]. split; [vm_compute; reflexivity |].
  exact (proj2 (X5_early_panic_keeps_the_receiver
                  A11 2 (world (withSVD 2))
                  (snd (reducedMatrix A11 2 (world (withSVD 2))))
                  ErrShape ltac:(lia)
                  ltac:(apply run_eq; vm_compute; reflexivity))).
Defined.

(** X6 at diag(3, 2) and rank 2 on the zero-valued receiver, where the call
    panics at the nil svd field. *)
Lemma X6_witness :
  QRContract /\ valid A22 /\ 1 <= 2 <= Rows A22 /\
  exists (QFull Q : Dense),
    Slice QFull 0 (Rows A22) 0 2 = Returns Q /\
    m (self (snd (Factorize A22 2 (world zeroRSVD)))) = Rows A22 /\
    q (self (snd (Factorize A22 2 (world zeroRSVD)))) = Some Q.
Proof.
  split; [exact identityQR_contract |]. split; [exact valid_A22 |].
  split; [vm_compute; split; discriminate |].
  destruct (X6_Factorize_stores_before_the_SVD
              A22 2 (world zeroRSVD) identityQR_contract valid_A22
              ltac:(vm_compute; split; discriminate))
    as (P & QFull & Q & qr & r' & _ & _ & _ & EQ & _ & Hm & Hq & _).
  exists QFull, Q. split; [exact EQ |]. split; [exact Hm | exact Hq].
Defined.

(** X7 at the rank-2 factorization of diag(3, 2) and an empty destination. *)
Lemma X7_witness :
  fst (UTo (self (snd (Factorize A22 2 (world (withSVD 2))))) emptyDense)
  = Returns tt /\
  Dims (snd (UTo (self (snd (Factorize A22 2 (world (withSVD 2))))) emptyDense))
  = (m (self (snd (Factorize A22 2 (world (withSVD 2))))),
     rank (self (snd (Factorize A22 2 (world (withSVD 2)))))).
Proof.
  split; [vm_compute; reflexivity |].
  destruct (X7_UTo_result
              (self (snd (Factorize A22 2 (world (withSVD 2))))) emptyDense
              (snd (UTo (self (snd (Factorize A22 2 (world (withSVD 2)))))
                        emptyDense))
              tt ltac:(apply run_eq; vm_compute; reflexivity))
    as (sv & Q & Uy & u0 & _ & _ & _ & _ & _ & _ & _ & D).
  exact D.
Defined.

(** X8 at the zero-valued receiver and a 1-by-1 destination. *)
Lemma X8_witness :
  fst (UTo zeroRSVD (ofRows [[7]])) = Panics NilDereference /\
  snd (UTo zeroRSVD (ofRows [[7]])) = ofRows [[7]].
Proof.
  split; [reflexivity |].
  exact (X8_UTo_panic_leaves_dst
           zeroRSVD (ofRows [[7]]) (snd (UTo zeroRSVD (ofRows [[7]])))
           NilDereference ltac:(apply run_eq; reflexivity)).
Defined.

(** X9 at the rank-2 factorization of diag(3, 2) on RSVD{svd: &SVD{}}. *)
Lemma X9_witness :
  rank (self (world (withSVD 0))) <= 0 /\
  exists e : panic_value,
    UTo (self (snd (Factorize A22 2 (world (withSVD 0))))) emptyDense
    = (Panics e, emptyDense).
Proof.
  split; [vm_compute; discriminate |].
  exact (X9_UTo_after_Factorize_without_rank
           A22 2 (world (withSVD 0)) emptyDense
           ltac:(vm_compute; discriminate)).
Defined.

(** X10 at the rank-2 factorization of diag(3, 2). *)
Lemma X10_witness :
  QRFullFactor /\
  fst (Factorize A22 2 (world (withSVD 2))) = Returns true /\
  1 <= 2 <= Rows A22 /\
  m (self (snd (Factorize A22 2 (world (withSVD 2))))) = Rows A22.
Proof.
  split; [exact identityQR_full_factor |].
  split; [vm_compute; reflexivity |].
  destruct (X10_Factorize_returns_only_if
              A22 2 (world (withSVD 2))
              (snd (Factorize A22 2 (world (withSVD 2)))) true
              identityQR_full_factor
              ltac:(apply run_eq; vm_compute; reflexivity))
    as (Hrk & _ & _ & _ & Hm & _).
  split; [exact Hrk | exact Hm].
Defined.

(** X11 at the zero value of Dense. *)
Lemma X11_witness :
  Cols emptyDense = 0 /\ 1 <= 2 /\
  Factorize emptyDense 2 (world (withSVD 2))
  = (Panics ErrZeroLength, world (withSVD 2)).
Proof.
  split; [reflexivity |]. split; [lia |].
  exact (X11_Factorize_of_an_empty_matrix
           emptyDense 2 (world (withSVD 2)) eq_refl ltac:(lia)).
Defined.

(** X12 at a 1-by-1 matrix and rank 2. *)
Lemma X12_witness :
  QRFullFactor /\ Rows A11 < 2 /\
  exists (e : panic_value) (w' : World),
    Factorize A11 2 (world (withSVD 2)) = (Panics e, w') /\
    self w' = self (world (withSVD 2)).
Proof.
  split; [exact identityQR_full_factor |].
  split; [vm_compute; reflexivity |].
  exact (X12_rank_above_m_is_rejected
           A11 2 (world (withSVD 2)) identityQR_full_factor
           ltac:(vm_compute; reflexivity)).
Defined.
